(** * Pest detection and pesticide recommendation: a verified model

    A shallow embedding of the decision logic of the repository:
    - [pesticide_recommender.py]: [PesticideRecommender.get_recommendations];
    - [pest_detector.py]: [PestDetector.__init__] and [PestDetector.predict_pest];
    - [preprocess_data.py]: [DataPreprocessor.copy_image_with_class] and
      [save_class_mapping];
    - [app.py]: [PestDetectionApp.initialize_components], [process_image] and
      [display_pesticide_recommendations].

    Python exceptions are values of [exn], fallible code returns [result].
    Python dicts whose insertion order is observable (the class mapping that
    is dumped to JSON, a recommendation record) are association lists; the
    detector's reverse index is a [gmap].  Probabilities are rationals: every
    finite float is one, and the code only compares and copies them. *)

From Stdlib Require Import Ascii QArith.
From stdpp Require Import base option list strings gmap pretty.

Close Scope Q_scope.
Local Open Scope char_scope.
Local Open Scope stdpp_scope.

(** ** Exceptions and results *)

Inductive exn : Type :=
| FileNotFoundError (msg : string)
| AttributeError (msg : string)
| KeyError (key : string)
| ValueError (msg : string)
| re_error (msg : string)
| LibraryError (msg : string).

Inductive result (A : Type) : Type :=
| Ok (a : A)
| Raise (e : exn).
Arguments Ok {A} a.
Arguments Raise {A} e.

Definition result_bind {A B : Type} (m : result A) (k : A → result B) : result B :=
  match m with
  | Ok a => k a
  | Raise e => Raise e
  end.

Notation "'let*' x := m 'in' k" := (result_bind m (fun x => k))
  (at level 10, x name, m at level 100, k at level 200).

(** ** Python strings (ASCII text) *)

Module Str.

(** [str.lower] on ASCII letters. *)
Definition lower_char (c : ascii) : ascii :=
  let n := nat_of_ascii c in
  if (65 <=? n)%nat && (n <=? 90)%nat then ascii_of_nat (n + 32) else c.

Fixpoint lower (s : string) : string :=
  match s with
  | EmptyString => EmptyString
  | String c s' => String (lower_char c) (lower s')
  end.

(** The ASCII characters for which [str.isspace] holds: tab, line feed,
    vertical tab, form feed, carriage return, the four separators
    0x1c..0x1f and the space. *)
Definition is_space (c : ascii) : bool :=
  let n := nat_of_ascii c in
  ((9 <=? n)%nat && (n <=? 13)%nat) || ((28 <=? n)%nat && (n <=? 32)%nat).

Fixpoint lstrip (s : string) : string :=
  match s with
  | EmptyString => EmptyString
  | String c s' => if is_space c then lstrip s' else s
  end.

Definition rstrip (s : string) : string := String.rev (lstrip (String.rev s)).

(** [str.strip()] with no argument. *)
Definition strip (s : string) : string := rstrip (lstrip s).

Fixpoint startswith (p s : string) : bool :=
  match p, s with
  | EmptyString, _ => true
  | String _ _, EmptyString => false
  | String a p', String b s' => Ascii.eqb a b && startswith p' s'
  end.

Definition endswith (s suffix : string) : bool :=
  startswith (String.rev suffix) (String.rev s).

(** [needle in haystack] for two strings. *)
Fixpoint str_in (needle haystack : string) : bool :=
  startswith needle haystack ||
  match haystack with
  | EmptyString => false
  | String _ rest => str_in needle rest
  end.

Fixpoint split_from (cur : string) (s : string) : list string :=
  match s with
  | EmptyString =>
      match cur with
      | EmptyString => []
      | String _ _ => [String.rev cur]
      end
  | String c s' =>
      if is_space c
      then match cur with
           | EmptyString => split_from EmptyString s'
           | String _ _ => String.rev cur :: split_from EmptyString s'
           end
      else split_from (String c cur) s'
  end.

(** [str.split()] with no argument: the words between runs of whitespace. *)
Definition split (s : string) : list string := split_from EmptyString s.

End Str.

(** ** The regular-expression engine behind [Series.str.contains]

    [Series.str.contains(pat, na=False)] is called with its default
    [regex=True]: the pattern is compiled by [re] and searched in every
    cell.  The fragment modelled here is the patterns whose only
    metacharacter is the dot: a literal character matches itself and a dot
    matches any character but the line feed.  Any other pattern is handed
    to [extern], which stands for the rest of [re]: it either fails to
    compile ([re.error]) or yields a search predicate. *)

Module Re.

Definition special (c : ascii) : bool :=
  existsb (Ascii.eqb c) (String.list_ascii_of_string ".^$*+?{}[]\|()").

Definition literal_or_dot (c : ascii) : bool :=
  negb (special c) || Ascii.eqb c ".".

Fixpoint in_fragment (pat : string) : bool :=
  match pat with
  | EmptyString => true
  | String c pat' => literal_or_dot c && in_fragment pat'
  end.

Fixpoint plain (pat : string) : bool :=
  match pat with
  | EmptyString => true
  | String c pat' => negb (special c) && plain pat'
  end.

Definition match_char (p c : ascii) : bool :=
  if Ascii.eqb p "." then negb (Ascii.eqb c "010") else Ascii.eqb p c.

(** The pattern matches a prefix of [s]. *)
Fixpoint match_here (pat s : string) : bool :=
  match pat, s with
  | EmptyString, _ => true
  | String _ _, EmptyString => false
  | String p pat', String c s' => match_char p c && match_here pat' s'
  end.

(** [re.search]: the pattern matches at some position of [s]. *)
Fixpoint search (pat s : string) : bool :=
  match_here pat s ||
  match s with
  | EmptyString => false
  | String _ rest => search pat rest
  end.

Definition compile (extern : string → result (string → bool)) (pat : string)
  : result (string → bool) :=
  if in_fragment pat then Ok (search pat) else extern pat.

End Re.

(** ** Python dicts with observable insertion order *)

Module Dict.
Section Dict.
Context {K V : Type} `{EqDecision K}.

Fixpoint get (d : list (K * V)) (k : K) : option V :=
  match d with
  | [] => None
  | (k', v) :: d' => if decide (k = k') then Some v else get d' k
  end.

(** [k in d] *)
Definition mem (d : list (K * V)) (k : K) : bool :=
  match get d k with Some _ => true | None => false end.

(** [d[k] = v]: an existing key keeps its position, a new one goes last. *)
Fixpoint set (d : list (K * V)) (k : K) (v : V) : list (K * V) :=
  match d with
  | [] => [(k, v)]
  | (k', v') :: d' =>
      if decide (k = k') then (k, v) :: d' else (k', v') :: set d' k v
  end.

Definition keys (d : list (K * V)) : list K := map fst d.
Definition values (d : list (K * V)) : list V := map snd d.
End Dict.
End Dict.

(** ** Data frames

    A frame of text columns (dtype [object]), as [pd.DataFrame] builds from
    the default table and [read_csv] from a CSV with textual columns: a cell
    is a string or the missing value.  A column that has rows, all of them
    missing, is the one column here that [read_csv] does not type as
    [object]: it reads it as [float64]. *)

Inductive cell : Type :=
| CStr (s : string)
| NaN.

Global Instance cell_eq_dec : EqDecision cell.
Proof. solve_decision. Defined.

Record DataFrame : Type := {
  columns : list string;
  rows : list (list cell)
}.

(** A row as [iterrows] yields it: a series labelled by the column names. *)
Record Series : Type := {
  index : list string;
  values : list cell
}.

Module Pd.

(** [str(x)] of a cell. *)
Definition py_str (c : cell) : string :=
  match c with
  | CStr s => s
  | NaN => "nan"
  end.

(** The value under a label, which is one of the labels wherever the
    program asks; a cell missing from a short row reads as [NaN], the way
    [read_csv] fills it. *)
Fixpoint lookup_label (labels : list string) (vals : list cell) (col : string) : cell :=
  match labels, vals with
  | l :: labels', v :: vals' =>
      if decide (col = l) then v else lookup_label labels' vals' col
  | _, _ => NaN
  end.

(** [row[col]] *)
Definition series_get (row : Series) (col : string) : cell :=
  lookup_label (index row) (values row) col.

(** [col in row]: membership in the labels. *)
Definition series_mem (row : Series) (col : string) : bool :=
  bool_decide (col ∈ index row).

(** [df[col]] *)
Definition column (df : DataFrame) (col : string) : list cell :=
  map (fun r => lookup_label (columns df) r col) (rows df).

Definition is_text (c : cell) : bool :=
  match c with
  | CStr _ => true
  | NaN => false
  end.

(** The columns that have a [.str] accessor: those that hold text, and
    the column without rows (dtype [object] in both cases).  A column that
    has rows but no text is one that [read_csv] types as numbers. *)
Definition accepts_str (col : list cell) : bool :=
  match col with
  | [] => true
  | _ :: _ => existsb is_text col
  end.

(** [series.str]: the accessor raises on a column it does not accept (the
    message is the one pandas 2 gives). *)
Definition str_accessor (col : list cell) : result (list cell) :=
  if accepts_str col
  then Ok col
  else Raise (AttributeError "Can only use .str accessor with string values!").

(** [series.str.lower()] *)
Definition str_lower (col : list cell) : result (list cell) :=
  let* col := str_accessor col in
  Ok (map (fun c => match c with CStr s => CStr (Str.lower s) | NaN => NaN end) col).

(** [series.str.contains(pat, na=False)], with the default [regex=True]:
    after the accessor, the pattern is compiled once, before any cell is
    looked at. *)
Definition str_contains (extern_re : string → result (string → bool))
    (col : list cell) (pat : string) : result (list bool) :=
  let* col := str_accessor col in
  let* found := Re.compile extern_re pat in
  Ok (map (fun c => match c with CStr s => found s | NaN => false end) col).

(** [c == v] on two cells: the missing value equals nothing, itself
    included. *)
Definition same_value (c v : cell) : bool :=
  match c, v with
  | CStr a, CStr b => bool_decide (a = b)
  | _, _ => false
  end.

(** [series == value], element by element. *)
Definition eq_value (col : list cell) (v : cell) : list bool :=
  map (fun c => same_value c v) col.

Fixpoint mask_rows (rs : list (list cell)) (mask : list bool) : list (list cell) :=
  match rs, mask with
  | r :: rs', b :: mask' => if b then r :: mask_rows rs' mask' else mask_rows rs' mask'
  | _, _ => []
  end.

(** [df[mask]] *)
Definition boolean_index (df : DataFrame) (mask : list bool) : DataFrame :=
  {| columns := columns df; rows := mask_rows (rows df) mask |}.

(** [df.empty] for a frame that has columns. *)
Definition empty (df : DataFrame) : bool :=
  match rows df with [] => true | _ :: _ => false end.

Fixpoint unique_from (seen : list cell) (col : list cell) : list cell :=
  match col with
  | [] => []
  | c :: col' =>
      if bool_decide (c ∈ seen) then unique_from seen col'
      else c :: unique_from (c :: seen) col'
  end.

(** [series.unique()]: the distinct values in order of first appearance;
    the missing value counts once. *)
Definition unique (col : list cell) : list cell := unique_from [] col.

(** [df.iterrows()], without the row labels. *)
Definition iterrows (df : DataFrame) : list Series :=
  map (fun r => {| index := columns df; values := r |}) (rows df).

Fixpoint transpose_from (n : nat) (i : nat) (cols : list (list cell)) : list (list cell) :=
  match n with
  | O => []
  | S n' => map (fun c => nth i c NaN) cols :: transpose_from n' (S i) cols
  end.

(** [pd.DataFrame(data)] for a dict of equally long lists. *)
Definition from_dict (data : list (string * list string)) : result DataFrame :=
  match data with
  | [] => Ok {| columns := []; rows := [] |}
  | (_, first) :: _ =>
      if forallb (fun kv => Nat.eqb (length (snd kv)) (length first)) data
      then Ok {| columns := map fst data;
                 rows := transpose_from (length first) 0
                           (map (fun kv => map CStr (snd kv)) data) |}
      else Raise (ValueError "All arrays must be of the same length")
  end.

End Pd.

(** ** The libraries and the file system the program runs against *)

(** A decoded image: its pixel values. *)
Definition Image : Type := list Z.

(** A network input: the normalised pixel array. *)
Definition Tensor : Type := list Q.

(** A loaded Keras model: [model.predict(x, verbose=0)[0]], the class
    probabilities of the single image of the batch. *)
Definition Model : Type := Tensor → result (list Q).

Record Env : Type := {
  (** [os.path.exists] *)
  path_exists : string → bool;
  (** [tensorflow.keras.models.load_model] *)
  load_model : string → result Model;
  (** [open(path, "r")] followed by [json.load]: an object of integers *)
  json_load : string → result (list (string * Z));
  (** [image.load_img(path, target_size)] followed by [img_to_array] *)
  load_img : string → result Image;
  (** [os.walk]: every directory under a path with the files in it *)
  walk : string → list (string * list string);
  (** [pd.read_csv] *)
  read_csv : string → result DataFrame;
  (** [os.makedirs("data", exist_ok=True)] and [DataFrame.to_csv] *)
  to_csv : string → DataFrame → result unit;
  (** [re.compile] on the patterns outside the fragment of [Re] *)
  re_extern : string → result (string → bool)
}.

(** [str(e)] *)
Definition exn_str (e : exn) : string :=
  match e with
  | FileNotFoundError msg => msg
  | AttributeError msg => msg
  | KeyError key => "'" +:+ key +:+ "'"
  | ValueError msg => msg
  | re_error msg => msg
  | LibraryError msg => msg
  end.

(** ** pesticide_recommender.py *)

Module PesticideRecommender.

Definition default_data : list (string * list string) :=
  [ ("pest_name",
     [ "aphid"; "aphid"; "aphid";
       "thrips"; "thrips"; "thrips";
       "whitefly"; "whitefly"; "whitefly";
       "caterpillar"; "caterpillar"; "caterpillar";
       "beetle"; "beetle"; "beetle";
       "mite"; "mite"; "mite";
       "leafhopper"; "leafhopper"; "leafhopper";
       "scale"; "scale"; "scale";
       "borer"; "borer"; "borer";
       "weevil"; "weevil"; "weevil";
       "armyworm"; "armyworm"; "bollworm"; "bollworm" ]);
    ("pesticide_name",
     [ "Imidacloprid"; "Thiamethoxam"; "Acetamiprid";
       "Spinosad"; "Abamectin"; "Fipronil";
       "Spiromesifen"; "Pyriproxyfen"; "Buprofezin";
       "Bacillus thuringiensis"; "Chlorantraniliprole"; "Indoxacarb";
       "Carbaryl"; "Permethrin"; "Lambda-cyhalothrin";
       "Abamectin"; "Hexythiazox"; "Propargite";
       "Imidacloprid"; "Deltamethrin"; "Cypermethrin";
       "Spirotetramat"; "Buprofezin"; "Dinotefuran";
       "Chlorantraniliprole"; "Fipronil"; "Cartap hydrochloride";
       "Imidacloprid"; "Chlorpyrifos"; "Thiamethoxam";
       "Spinetoram"; "Emamectin benzoate"; "Flubendiamide"; "Chlorantraniliprole" ]);
    ("application_rate",
     [ "0.5ml/L"; "0.3g/L"; "0.6ml/L";
       "0.45ml/L"; "1.9ml/L"; "2ml/L";
       "1.5ml/L"; "1ml/L"; "2ml/L";
       "2g/L"; "0.6ml/L"; "2ml/L";
       "2g/L"; "2ml/L"; "1ml/L";
       "1.9ml/L"; "1.5ml/L"; "2ml/L";
       "0.5ml/L"; "1ml/L"; "1ml/L";
       "1ml/L"; "2ml/L"; "0.6ml/L";
       "0.6ml/L"; "2ml/L"; "2g/L";
       "0.5ml/L"; "2ml/L"; "0.3g/L";
       "0.45ml/L"; "0.5g/L"; "2.5ml/L"; "0.6ml/L" ]);
    ("effectiveness",
     [ "High"; "High"; "Medium";
       "High"; "Medium"; "High";
       "High"; "Medium"; "Medium";
       "High"; "High"; "High";
       "Medium"; "High"; "High";
       "High"; "Medium"; "Medium";
       "High"; "High"; "High";
       "Medium"; "Medium"; "High";
       "High"; "High"; "Medium";
       "High"; "Medium"; "High";
       "High"; "High"; "High"; "High" ]) ].

(** The loop over the column names: the last column of each kind wins. *)
Fixpoint find_columns (cols : list string) (pest_col pesticide_col : option string)
  : option string * option string :=
  match cols with
  | [] => (pest_col, pesticide_col)
  | col :: cols' =>
      let pest_col :=
        if bool_decide (Str.lower col ∈ ["pest name"; "pest_name"])
        then Some col else pest_col in
      let pesticide_col :=
        if bool_decide (Str.lower col ∈ ["most commonly used pesticides"; "pesticide_name"])
        then Some col else pesticide_col in
      find_columns cols' pest_col pesticide_col
  end.

(** The bidirectional test of the partial-match loop. *)
Definition partial_match (pest_name_clean : string) (pest : cell) : bool :=
  Str.str_in pest_name_clean (Str.lower (Pd.py_str pest))
  || Str.str_in (Str.lower (Pd.py_str pest)) pest_name_clean.

(** The partial-match loop, with its [break]. *)
Fixpoint partial_loop (db : DataFrame) (pest_col pest_name_clean : string)
    (pests : list cell) (matches : DataFrame) : DataFrame :=
  match pests with
  | [] => matches
  | pest :: pests' =>
      if partial_match pest_name_clean pest
      then Pd.boolean_index db (Pd.eq_value (Pd.column db pest_col) pest)
      else partial_loop db pest_col pest_name_clean pests' matches
  end.

(** The body of the loop that builds one recommendation. *)
Definition to_rec (pest_col pesticide_col : string) (row : Series)
  : list (string * cell) :=
  let rec := [] in
  let rec := Dict.set rec "pest_name" (Pd.series_get row pest_col) in
  let rec := Dict.set rec "pesticide" (Pd.series_get row pesticide_col) in
  let rec :=
    if Pd.series_mem row "application_rate"
    then Dict.set rec "application_rate" (Pd.series_get row "application_rate")
    else rec in
  let rec :=
    if Pd.series_mem row "effectiveness"
    then Dict.set rec "effectiveness" (Pd.series_get row "effectiveness")
    else rec in
  rec.

Section GetRecommendations.
(** The part of [re] outside the modelled fragment. *)
Variable extern_re : string → result (string → bool).

(** The direct match: the boolean mask and the rows it selects. *)
Definition direct_match (db : DataFrame) (pest_col pest_name_clean : string)
  : result DataFrame :=
  let* lowered := Pd.str_lower (Pd.column db pest_col) in
  let* mask := Pd.str_contains extern_re lowered pest_name_clean in
  Ok (Pd.boolean_index db mask).

Definition get_recommendations (pesticide_db : option DataFrame) (pest_name : string)
  : result (list (list (string * cell))) :=
  match pesticide_db with
  | None => Ok []
  | Some db =>
      let pest_name_clean := Str.strip (Str.lower pest_name) in
      match find_columns (columns db) None None with
      | (Some pest_col, Some pesticide_col) =>
          let* matches := direct_match db pest_col pest_name_clean in
          let matches :=
            if Pd.empty matches
            then partial_loop db pest_col pest_name_clean
                   (Pd.unique (Pd.column db pest_col)) matches
            else matches in
          Ok (map (to_rec pest_col pesticide_col) (Pd.iterrows matches))
      | _ => Ok []
      end
  end.
End GetRecommendations.

(** The frame [pd.DataFrame(default_data)] builds. *)
Definition default_database : DataFrame :=
  Eval cbv in
    match Pd.from_dict default_data with
    | Ok db => db
    | Raise _ => {| columns := []; rows := [] |}
    end.

Record t : Type := { pesticide_db : option DataFrame }.

Definition create_default_database (env : Env) : result t :=
  let* db := Pd.from_dict default_data in
  let* _ := to_csv env "data/default_pesticide_db.csv" db in
  Ok {| pesticide_db := Some db |}.

Definition load_pesticide_database (env : Env) : result t :=
  let pestopia_path := "data/pestopia" in
  let csv_files :=
    if path_exists env pestopia_path
    then flat_map
           (fun rf => map (fun file => fst rf +:+ "/" +:+ file)
                        (List.filter (fun file => Str.endswith file ".csv") (snd rf)))
           (walk env pestopia_path)
    else [] in
  match csv_files with
  | first :: _ =>
      match read_csv env first with
      | Ok db => Ok {| pesticide_db := Some db |}
      | Raise _ => create_default_database env
      end
  | [] => create_default_database env
  end.

Definition __init__ (env : Env) : result t := load_pesticide_database env.

(** [self.pesticide_db["pest_name"].unique().tolist()]; the column is
    asked for by this one spelling. *)
Definition get_all_pests (self : t) : result (list cell) :=
  match pesticide_db self with
  | Some db =>
      if bool_decide ("pest_name" ∈ columns db)
      then Ok (Pd.unique (Pd.column db "pest_name"))
      else Raise (KeyError "pest_name")
  | None => Ok []
  end.

End PesticideRecommender.

(** ** pest_detector.py *)

Module PestDetector.

Record t : Type := {
  model : Model;
  class_mapping : list (string * Z);
  idx_to_class : gmap Z string
}.

Definition model_path : string := "models/pest_detection_model.h5".
Definition mapping_path : string := "processed_data/class_mapping.json".

(** [{v: k for k, v in class_mapping.items()}]: a later item overwrites
    an earlier one with the same index. *)
Definition reverse_mapping (class_mapping : list (string * Z)) : gmap Z string :=
  fold_left (fun m kv => <[snd kv := fst kv]> m) class_mapping ∅.

Definition __init__ (env : Env) (model_path mapping_path : string) : result t :=
  if negb (path_exists env model_path)
  then Raise (FileNotFoundError ("Model not found at " +:+ model_path))
  else
    let* model := load_model env model_path in
    if negb (path_exists env mapping_path)
    then Raise (FileNotFoundError ("Class mapping not found at " +:+ mapping_path))
    else
      let* class_mapping := json_load env mapping_path in
      Ok {| model := model;
            class_mapping := class_mapping;
            idx_to_class := reverse_mapping class_mapping |}.

Definition preprocess_image (env : Env) (img_path : string) : result Tensor :=
  if negb (path_exists env img_path)
  then Raise (FileNotFoundError ("Image not found: " +:+ img_path))
  else
    let* img := load_img env img_path in
    Ok (map (fun p => (inject_Z p / 255)%Q) img).

(** [np.argmax] scans for the first largest entry. *)
Fixpoint argmax_from (best : nat) (best_val : Q) (i : nat) (l : list Q) : nat :=
  match l with
  | [] => best
  | x :: l' =>
      if Qle_bool x best_val
      then argmax_from best best_val (S i) l'
      else argmax_from i x (S i) l'
  end.

Definition argmax (l : list Q) : result nat :=
  match l with
  | [] => Raise (ValueError "attempt to get argmax of an empty sequence")
  | x :: l' => Ok (argmax_from 0 x 1 l')
  end.

Definition predict_pest (env : Env) (self : t) (img_path : string)
  : result (string * Q) :=
  let* processed_img := preprocess_image env img_path in
  let* predictions := model self processed_img in
  let* class_idx := argmax predictions in
  let confidence := nth class_idx predictions 0%Q in
  let pest_name := default "Unknown" (idx_to_class self !! Z.of_nat class_idx) in
  Ok (pest_name, confidence).

End PestDetector.

(** ** preprocess_data.py *)

Module DataPreprocessor.

(** What a run threads along: the class table of the object, and the tree
    under processed_data/images (a directory path to its entries, an entry
    name to the path it was copied from), empty before the first copy. *)
Record t : Type := {
  pest_classes : list (string * nat);
  tree : gmap string (gmap string string)
}.

Definition __init__ : t := {| pest_classes := []; tree := ∅ |}.

Definition pest_keywords : list string :=
  [ "aphid"; "thrips"; "whitefly"; "caterpillar"; "beetle";
    "mite"; "leafhopper"; "scale"; "borer"; "weevil";
    "armyworm"; "bollworm"; "cutworm"; "wireworm" ].

Fixpoint after_last_slash (acc s : string) : string :=
  match s with
  | EmptyString => acc
  | String c s' =>
      if Ascii.eqb c "/" then after_last_slash s' s' else after_last_slash acc s'
  end.

(** [os.path.basename] *)
Definition basename (path : string) : string := after_last_slash path path.

Definition extract_pest_class (path : string) : option string :=
  let path_lower := Str.lower path in
  match find (fun keyword => Str.str_in keyword path_lower) pest_keywords with
  | Some keyword => Some keyword
  | None =>
      let folder_name := Str.lower (basename path) in
      if negb (bool_decide (folder_name = "")) && negb (bool_decide (folder_name = "images"))
      then Some folder_name
      else None
  end.

(** [os.makedirs(d, exist_ok=True)] *)
Definition makedirs (tr : gmap string (gmap string string)) (d : string)
  : gmap string (gmap string string) :=
  match tr !! d with
  | Some _ => tr
  | None => <[d := ∅]> tr
  end.

(** [os.listdir(d)] *)
Definition listdir (tr : gmap string (gmap string string)) (d : string) : list string :=
  match tr !! d with
  | Some entries => map fst (map_to_list entries)
  | None => []
  end.

(** [shutil.copy2(src, os.path.join(d, name))] *)
Definition copy2 (tr : gmap string (gmap string string)) (src d name : string)
  : gmap string (gmap string string) :=
  <[d := <[name := src]> (default ∅ (tr !! d))]> tr.

Definition copy_image_with_class (self : t) (src_path pest_class : string) : t :=
  let pest_classes :=
    if negb (Dict.mem (pest_classes self) pest_class)
    then Dict.set (pest_classes self) pest_class (length (pest_classes self))
    else pest_classes self in
  let class_dir := "processed_data/images/" +:+ pest_class in
  let tr := makedirs (tree self) class_dir in
  let filename :=
    pest_class +:+ "_" +:+ pretty (length (listdir tr class_dir)) +:+ ".jpg" in
  {| pest_classes := pest_classes; tree := copy2 tr src_path class_dir filename |}.

(** [s.endswith(suffixes)] for a tuple of suffixes. *)
Definition ends_with_any (s : string) (suffixes : list string) : bool :=
  existsb (Str.endswith s) suffixes.

(** The loop over the files of one walked directory. *)
Fixpoint process_files (self : t) (root : string) (files : list string) : t :=
  match files with
  | [] => self
  | file :: files' =>
      let self :=
        if ends_with_any (Str.lower file) [".png"; ".jpg"; ".jpeg"]
        then match extract_pest_class root with
             | Some pest_class =>
                 copy_image_with_class self (root +:+ "/" +:+ file) pest_class
             | None => self
             end
        else self in
      process_files self root files'
  end.

(** [process_crop_pest_data] and [process_ag_pest_data], for their path. *)
Definition process_pest_data (env : Env) (self : t) (path : string) : t :=
  if path_exists env path
  then fold_left (fun self rf => process_files self (fst rf) (snd rf)) (walk env path) self
  else self.

(** What [save_class_mapping] dumps: the dict, in insertion order. *)
Definition save_class_mapping (self : t) : list (string * Z) :=
  map (fun kv => (fst kv, Z.of_nat (snd kv))) (pest_classes self).

(** [create_unified_dataset], up to the train/validation copies, which do
    not touch the class table. *)
Definition create_unified_dataset (env : Env) : t :=
  let self := __init__ in
  let self := process_pest_data env self "data/crop_pest" in
  let self := process_pest_data env self "data/ag_pests" in
  self.

End DataPreprocessor.

(** ** app.py *)

Module PestDetectionApp.

(** The result the application reads from [detect_pest]. *)
Record detection_result : Type := {
  pest_detected : bool;
  primary_pest : string;
  confidence : Q;
  all_predictions : list (string * Q)
}.

(** [self.detector] as the application uses it: an object on which it
    looks up [detect_pest] and [draw_detection_box]. *)
Record detector_object : Type := {
  instance : PestDetector.t;
  detect_pest : option (Image → Q → result detection_result);
  draw_detection_box : option (Image → detection_result → result Image)
}.

(** An instance of the class of pest_detector.py, which defines
    [__init__], [preprocess_image], [predict_pest] and
    [visualize_prediction], and nothing else. *)
Definition PestDetector_object (d : PestDetector.t) : detector_object :=
  {| instance := d; detect_pest := None; draw_detection_box := None |}.

Definition getattr {A : Type} (attr : option A) (name : string) : result A :=
  match attr with
  | Some a => Ok a
  | None =>
      Raise (AttributeError
               ("'PestDetector' object has no attribute '" +:+ name +:+ "'"))
  end.

Record t : Type := {
  detector : option detector_object;
  recommender : option PesticideRecommender.t
}.

(** What the page shows; the text formatting of the cards is left out. *)
Inductive widget : Type :=
| st_error (msg : string)
| pest_card (primary_pest : string) (confidence : Q)
| prediction_line (emoji class : string) (confidence : Q)
| detection_image (img : Image)
| no_pest_card
| recommendations_header
| st_success (count : nat) (pest_name : string)
| pesticide_card (i : nat) (pesticide_name application_rate effectiveness : cell)
    (emoji : string)
| safety_notes
| no_recommendations (pest_name : string).

(** A step of the page: the widgets it has shown, and how it ended. *)
Definition shown (A : Type) : Type := list widget * result A.

Definition initialize_components (env : Env) : t * list widget * bool :=
  match PestDetector.__init__ env PestDetector.model_path PestDetector.mapping_path with
  | Raise e =>
      ({| detector := None; recommender := None |},
       [st_error ("Error initializing components: " +:+ exn_str e)], false)
  | Ok d =>
      match PesticideRecommender.__init__ env with
      | Raise e =>
          ({| detector := Some (PestDetector_object d); recommender := None |},
           [st_error ("Error initializing components: " +:+ exn_str e)], false)
      | Ok r =>
          ({| detector := Some (PestDetector_object d); recommender := Some r |},
           [], true)
      end
  end.

Definition getitem (rec : list (string * cell)) (key : string) : result cell :=
  match Dict.get rec key with
  | Some v => Ok v
  | None => Raise (KeyError key)
  end.

Definition effectiveness_emoji (e : cell) : string :=
  match e with
  | CStr "High" => "green"
  | CStr "Medium" => "yellow"
  | CStr "Low" => "red"
  | _ => "white"
  end.

(** The loop over [enumerate(recommendations, 1)]. *)
Fixpoint show_recommendations (i : nat) (recs : list (list (string * cell)))
  : shown unit :=
  match recs with
  | [] => ([], Ok tt)
  | rec :: recs' =>
      match getitem rec "effectiveness" with
      | Raise e => ([], Raise e)
      | Ok eff =>
          let emoji := effectiveness_emoji eff in
          match getitem rec "pesticide_name" with
          | Raise e => ([], Raise e)
          | Ok name =>
              match getitem rec "application_rate" with
              | Raise e => ([], Raise e)
              | Ok rate =>
                  let '(ws, r) := show_recommendations (S i) recs' in
                  (pesticide_card i name rate eff emoji :: ws, r)
              end
          end
      end
  end.

Definition display_pesticide_recommendations (env : Env)
    (recommender : PesticideRecommender.t) (pest_name : string) : shown unit :=
  match PesticideRecommender.get_recommendations (re_extern env)
          (PesticideRecommender.pesticide_db recommender) pest_name with
  | Raise e => ([recommendations_header], Raise e)
  | Ok [] => ([recommendations_header; no_recommendations pest_name], Ok tt)
  | Ok recommendations =>
      let '(ws, r) := show_recommendations 1 recommendations in
      match r with
      | Ok _ =>
          (recommendations_header :: st_success (length recommendations) pest_name
             :: ws ++ [safety_notes], Ok tt)
      | Raise e =>
          (recommendations_header :: st_success (length recommendations) pest_name
             :: ws, Raise e)
      end
  end.

Definition prediction_emoji (confidence : Q) : string :=
  if negb (Qle_bool confidence (7 # 10)) then "green"
  else if negb (Qle_bool confidence (4 # 10)) then "yellow"
  else "red".

Definition display_no_pest_detected : shown unit := ([no_pest_card], Ok tt).

Definition display_pest_detected (env : Env) (d : detector_object)
    (recommender : PesticideRecommender.t)
    (detection : detection_result) (original_image : Image) : shown unit :=
  let head :=
    pest_card (primary_pest detection) (confidence detection)
    :: map (fun pred => prediction_line (prediction_emoji (snd pred)) (fst pred) (snd pred))
           (take 3 (all_predictions detection)) in
  match getattr (draw_detection_box d) "draw_detection_box" with
  | Raise e => (head, Raise e)
  | Ok draw =>
      match draw original_image detection with
      | Raise e => (head, Raise e)
      | Ok detected_image =>
          let '(ws, r) :=
            display_pesticide_recommendations env recommender (primary_pest detection) in
          (head ++ detection_image detected_image :: ws, r)
      end
  end.

(** [run] calls [process_image] only when both components are set. *)
Definition process_image (env : Env) (d : detector_object)
    (recommender : PesticideRecommender.t) (image : Image) : shown unit :=
  match getattr (detect_pest d) "detect_pest" with
  | Raise e => ([], Raise e)
  | Ok detect =>
      match detect image (3 # 10)%Q with
      | Raise e => ([], Raise e)
      | Ok detection =>
          if pest_detected detection
          then display_pest_detected env d recommender detection image
          else display_no_pest_detected
      end
  end.

(** What [run] puts under the page header. *)
Inductive page : Type :=
| not_initialized
| awaiting_upload
| upload_unreadable (e : exn)
| image_page (image : Image) (detection : option (shown unit)).

(** [run], for what the browser sends: the uploaded file as [Image.open]
    reads it, if one was uploaded, and whether the button was clicked. *)
Definition run (env : Env) (self : t) (uploaded_file : option (result Image))
    (clicked : bool) : page :=
  match detector self, recommender self with
  | Some d, Some r =>
      match uploaded_file with
      | None => awaiting_upload
      | Some (Raise e) => upload_unreadable e
      | Some (Ok image) =>
          image_page image
            (if clicked then Some (process_image env d r image) else None)
      end
  | _, _ => not_initialized
  end.

End PestDetectionApp.

(** ** run_system.py *)

Module RunSystem.

Definition required_files : list string :=
  [ "models/pest_detection_model.h5";
    "processed_data/class_mapping.json";
    "app.py" ].

(** The loop of [check_requirements] over the files still to look at. *)
Fixpoint check_loop (env : Env) (files missing_files : list string) : list string :=
  match files with
  | [] => missing_files
  | file :: files' =>
      if negb (path_exists env file)
      then check_loop env files' (missing_files ++ [file])
      else check_loop env files' missing_files
  end.

Definition check_requirements (env : Env) : list string :=
  check_loop env required_files [].

(** The steps; their descriptions, which are only printed, without the emoji. *)
Definition steps : list (string * string) :=
  [ ("Downloading datasets...", "python download_datasets.py");
    ("Preprocessing data...", "python preprocess_data.py");
    ("Training model (this may take a while)...", "python train_model.py");
    ("Testing pesticide recommender...", "python pesticide_recommender.py") ].

Section Subprocess.
(** [subprocess.run(argv, capture_output=True, text=True)]: the return
    code and the error output, or the exception of a command that could
    not be started. *)
Variable subprocess_run : list string → result (Z * string).

(** The loop of [setup_system]: the commands launched, in order, and
    whether every step succeeded. *)
Fixpoint run_steps (todo : list (string * string)) : list (list string) * bool :=
  match todo with
  | [] => ([], true)
  | (description, command) :: todo' =>
      let argv := Str.split command in
      match subprocess_run argv with
      | Ok (returncode, stderr) =>
          if Z.eqb returncode 0
          then let '(launched, ok) := run_steps todo' in (argv :: launched, ok)
          else ([argv], false)
      | Raise e => ([argv], false)
      end
  end.

Definition setup_system : list (list string) * bool := run_steps steps.

(** [run_app] launches the server and swallows whatever that raises. *)
Definition run_app : list (list string) := [["streamlit"; "run"; "app.py"]].

(** [main], by the commands it launches. *)
Definition main (env : Env) : list (list string) :=
  match check_requirements env with
  | _ :: _ =>
      let '(launched, ok) := setup_system in
      if ok then launched ++ run_app else launched
  | [] => run_app
  end.
End Subprocess.

End RunSystem.

(** ** Vocabulary of the statements *)

(** The pest-name cell of a row. *)
Definition pest_of (db : DataFrame) (pest_col : string) (r : list cell) : cell :=
  Pd.lookup_label (columns db) r pest_col.

(** The rows of a frame that pass a test, as a frame. *)
Definition rows_where (db : DataFrame) (keep : list cell → bool) : DataFrame :=
  {| columns := columns db; rows := List.filter keep (rows db) |}.

(** The pest name of the row contains the query, case-insensitively. *)
Definition name_contains (db : DataFrame) (pest_col q : string) (r : list cell) : bool :=
  match pest_of db pest_col r with
  | CStr s => Str.str_in q (Str.lower s)
  | NaN => false
  end.

(** The row has a pest name. *)
Definition has_name (db : DataFrame) (pest_col : string) (r : list cell) : bool :=
  match pest_of db pest_col r with
  | CStr _ => true
  | NaN => false
  end.

(** [pest_name.lower().strip()] *)
Definition clean (pest_name : string) : string := Str.strip (Str.lower pest_name).

(** The records built from the rows of a frame. *)
Definition records (pest_col pesticide_col : string) (m : DataFrame)
  : list (list (string * cell)) :=
  map (PesticideRecommender.to_rec pest_col pesticide_col) (Pd.iterrows m).

(** The keys of a recommendation built from a frame with these columns. *)
Definition rec_keys (cols : list string) : list string :=
  "pest_name" :: "pesticide"
  :: (if bool_decide ("application_rate" ∈ cols) then ["application_rate"] else [])
  ++ (if bool_decide ("effectiveness" ∈ cols) then ["effectiveness"] else []).

(** The class table numbers its keys 0, 1, 2, ... in insertion order. *)
Definition dense (pest_classes : list (string * nat)) : Prop :=
  NoDup (Dict.keys pest_classes)
  ∧ Dict.values pest_classes = seq 0 (length pest_classes).

(** A run of [copy_image_with_class] over (source path, class) pairs. *)
Definition copy_all (self : DataPreprocessor.t) (calls : list (string * string))
  : DataPreprocessor.t :=
  fold_left (fun self call => DataPreprocessor.copy_image_with_class self (fst call) (snd call))
    calls self.

(** The directory of a class under processed_data/images. *)
Definition class_dir (pest_class : string) : string :=
  "processed_data/images/" +:+ pest_class.

(** The name given to the image copied when the directory holds [i] files. *)
Definition image_name (pest_class : string) (i : nat) : string :=
  pest_class +:+ "_" +:+ pretty i +:+ ".jpg".

(** The number of files in the directory of a class. *)
Definition files_of (tr : gmap string (gmap string string)) (pest_class : string) : nat :=
  size (default ∅ (tr !! class_dir pest_class)).

(** Every class directory holds the files numbered 0 .. n-1, and no other. *)
Definition numbered (tr : gmap string (gmap string string)) : Prop :=
  ∀ c entries, tr !! class_dir c = Some entries →
    ∀ name, is_Some (entries !! name) ↔ ∃ i, i < size entries ∧ name = image_name c i.

(** The file-name test of the preprocessing loops. *)
Definition is_image (file : string) : bool :=
  DataPreprocessor.ends_with_any (Str.lower file) [".png"; ".jpg"; ".jpeg"].

(** A record that carries the three keys the page reads. *)
Definition displayable (rec : list (string * cell)) : Prop :=
  is_Some (Dict.get rec "effectiveness")
  ∧ is_Some (Dict.get rec "pesticide_name")
  ∧ is_Some (Dict.get rec "application_rate").

(** The command lines of the set-up steps. *)
Definition step_commands : list (list string) :=
  [ ["python"; "download_datasets.py"];
    ["python"; "preprocess_data.py"];
    ["python"; "train_model.py"];
    ["python"; "pesticide_recommender.py"] ].

(** The command started and exited with code 0. *)
Definition succeeded (subprocess_run : list string → result (Z * string))
    (argv : list string) : Prop :=
  ∃ stderr, subprocess_run argv = Ok (0%Z, stderr).

(** One string occurs in another. *)
Definition occurs_in (needle haystack : string) : Prop :=
  ∃ pre post, haystack = pre +:+ needle +:+ post.

(** The column-name tests of [get_recommendations]. *)
Definition is_pest_col (col : string) : bool :=
  bool_decide (Str.lower col ∈ ["pest name"; "pest_name"]).

Definition is_pesticide_col (col : string) : bool :=
  bool_decide (Str.lower col ∈ ["most commonly used pesticides"; "pesticide_name"]).

(** A table in the spelling of the Pestopia CSV. *)
Definition pestopia_table : DataFrame := {|
  columns := ["Pest Name"; "Most Commonly Used Pesticides"];
  rows := [ [CStr "Aphids"; CStr "Imidacloprid"];
            [CStr "Stem Borer"; CStr "Cartap"];
            [CStr "Aphids"; CStr "Neem oil"];
            [NaN; CStr "Sulphur"] ]
|}.

(** The library loaders do not report an existing path as not found. *)
Definition loaders_find_existing (env : Env) : Prop :=
  ∀ p msg, path_exists env p = true →
    load_model env p ≠ Raise (FileNotFoundError msg)
    ∧ json_load env p ≠ Raise (FileNotFoundError msg).

(** ** Example environments *)

(** A machine on which nothing has been downloaded or trained. *)
Definition blank_env : Env := {|
  path_exists := fun _ => false;
  load_model := fun p => Raise (LibraryError p);
  json_load := fun p => Raise (LibraryError p);
  load_img := fun p => Raise (LibraryError p);
  walk := fun _ => [];
  read_csv := fun p => Raise (LibraryError p);
  to_csv := fun _ _ => Ok tt;
  re_extern := fun p => Raise (re_error p)
|}.

(** A trained system with three classes and one test image. *)
Definition trained_env : Env := {|
  path_exists := fun p =>
    bool_decide (p ∈ [PestDetector.model_path; PestDetector.mapping_path; "leaf.jpg"]);
  load_model := fun _ => Ok (fun _ => Ok [(1 # 10); (7 # 10); (2 # 10)]%Q);
  json_load := fun _ => Ok [("aphid", 0%Z); ("mite", 1%Z); ("thrips", 2%Z)];
  load_img := fun _ => Ok [0%Z; 128%Z; 255%Z];
  walk := fun _ => [];
  read_csv := fun p => Raise (LibraryError p);
  to_csv := fun _ _ => Ok tt;
  re_extern := fun p => Raise (re_error p)
|}.

(** The model file is there but does not load; the class mapping is not. *)
Definition unloadable_model_env : Env := {|
  path_exists := fun p => bool_decide (p = PestDetector.model_path);
  load_model := fun _ => Raise (LibraryError "file signature not found");
  json_load := fun p => Raise (LibraryError p);
  load_img := fun p => Raise (LibraryError p);
  walk := fun _ => [];
  read_csv := fun p => Raise (LibraryError p);
  to_csv := fun _ _ => Ok tt;
  re_extern := fun p => Raise (re_error p)
|}.

(** A model retrained with a third class while the class mapping on disk
    still lists two. *)
Definition stale_mapping_env : Env := {|
  path_exists := fun p =>
    bool_decide (p ∈ [PestDetector.model_path; PestDetector.mapping_path; "leaf.jpg"]);
  load_model := fun _ => Ok (fun _ => Ok [(1 # 10); (3 # 10); (6 # 10)]%Q);
  json_load := fun _ => Ok [("aphid", 0%Z); ("mite", 1%Z)];
  load_img := fun _ => Ok [0%Z; 128%Z; 255%Z];
  walk := fun _ => [];
  read_csv := fun p => Raise (LibraryError p);
  to_csv := fun _ _ => Ok tt;
  re_extern := fun p => Raise (re_error p)
|}.

(** A checkout with the Pestopia table in a subdirectory of data/pestopia,
    among other files. *)
Definition pestopia_env : Env := {|
  path_exists := fun p => bool_decide (p = "data/pestopia");
  load_model := fun p => Raise (LibraryError p);
  json_load := fun p => Raise (LibraryError p);
  load_img := fun p => Raise (LibraryError p);
  walk := fun p =>
    if bool_decide (p = "data/pestopia")
    then [("data/pestopia", ["README.md"]);
          ("data/pestopia/tables", ["notes.txt"; "pests.csv"; "older.csv"]);
          ("data/pestopia/images", ["a.csv"])]
    else [];
  read_csv := fun p =>
    if bool_decide (p = "data/pestopia/tables/pests.csv") then Ok pestopia_table
    else Raise (LibraryError p);
  to_csv := fun _ _ => Ok tt;
  re_extern := fun p => Raise (re_error p)
|}.

(** The detector [PestDetector.__init__] builds on the trained system. *)
Definition trained_detector : PestDetector.t := {|
  PestDetector.model := fun _ => Ok [(1 # 10); (7 # 10); (2 # 10)]%Q;
  PestDetector.class_mapping := [("aphid", 0%Z); ("mite", 1%Z); ("thrips", 2%Z)];
  PestDetector.idx_to_class :=
    PestDetector.reverse_mapping [("aphid", 0%Z); ("mite", 1%Z); ("thrips", 2%Z)]
|}.

(** * Properties *)

(** ** Strings *)

Lemma append_nil_l (s : string) : "" +:+ s = s.
Proof. reflexivity. Qed.

Lemma append_cons (c : ascii) (s t : string) : String c s +:+ t = String c (s +:+ t).
Proof. reflexivity. Qed.

Lemma startswith_spec (p s : string) :
  Str.startswith p s = true ↔ ∃ post, s = p +:+ post.
Proof.
  revert s. induction p as [|a p IH]; intros s; simpl.
  - split; [intros _; exists s; reflexivity | reflexivity].
  - destruct s as [|b s].
    + split; [discriminate | intros [post H]; rewrite append_cons in H; discriminate].
    + rewrite andb_true_iff, Ascii.eqb_eq, IH. split.
      * intros [-> [post ->]]. exists post. reflexivity.
      * intros [post H]. rewrite append_cons in H. injection H as -> ->. eauto.
Qed.

(** [needle in haystack] holds exactly when the haystack splits around the
    needle. *)
Lemma str_in_spec (p s : string) :
  Str.str_in p s = true ↔ ∃ pre post, s = pre +:+ p +:+ post.
Proof.
  induction s as [|c s IH]; simpl; rewrite orb_true_iff.
  - split.
    + intros [H|H]; [|discriminate].
      apply startswith_spec in H as [post H]. exists "", post. exact H.
    + intros [pre [post H]]. left. apply startswith_spec.
      destruct pre; [|rewrite append_cons in H; discriminate].
      exists post. exact H.
  - rewrite IH, startswith_spec. split.
    + intros [[post H]|[pre [post H]]].
      * exists "", post. exact H.
      * exists (String c pre), post. rewrite append_cons. f_equal. exact H.
    + intros [[|c' pre] [post H]].
      * left. exists post. exact H.
      * right. rewrite append_cons in H. injection H as -> H. eauto.
Qed.

Lemma str_in_empty (s : string) : Str.str_in "" s = true.
Proof. destruct s; reflexivity. Qed.

(** ** The regular-expression fragment *)

Lemma plain_in_fragment (pat : string) :
  Re.plain pat = true → Re.in_fragment pat = true.
Proof.
  induction pat as [|c pat IH]; simpl; [reflexivity|].
  rewrite !andb_true_iff. intros [Hc Hp]. split; [|auto].
  unfold Re.literal_or_dot. rewrite Hc. reflexivity.
Qed.

Lemma match_here_plain (pat s : string) :
  Re.plain pat = true → Re.match_here pat s = Str.startswith pat s.
Proof.
  revert s. induction pat as [|p pat IH]; intros s; simpl; [reflexivity|].
  rewrite andb_true_iff. intros [Hp Hpat]. destruct s as [|c s]; [reflexivity|].
  rewrite IH by exact Hpat. f_equal.
  unfold Re.match_char. destruct (Ascii.eqb p ".") eqn:E; [|reflexivity].
  apply Ascii.eqb_eq in E. subst p. discriminate.
Qed.

(** On a pattern without metacharacters, [re.search] is the substring test. *)
Lemma search_plain (pat s : string) :
  Re.plain pat = true → Re.search pat s = Str.str_in pat s.
Proof.
  intros Hp. induction s as [|c s IH]; simpl; rewrite match_here_plain by exact Hp.
  - reflexivity.
  - rewrite IH. reflexivity.
Qed.

Lemma compile_in_fragment extern (pat : string) :
  Re.in_fragment pat = true → Re.compile extern pat = Ok (Re.search pat).
Proof. intros H. unfold Re.compile. rewrite H. reflexivity. Qed.

(** ** Frames *)

Lemma mask_rows_map (rs : list (list cell)) (f : list cell → bool) :
  Pd.mask_rows rs (map f rs) = List.filter f rs.
Proof.
  induction rs as [|r rs IH]; simpl; [reflexivity|].
  destruct (f r); rewrite IH; reflexivity.
Qed.

Lemma default_database_built :
  Pd.from_dict PesticideRecommender.default_data = Ok PesticideRecommender.default_database.
Proof. reflexivity. Qed.

(** The rows [series == pest] selects. *)
Lemma eq_value_rows (db : DataFrame) (pest_col : string) (pest : cell) :
  Pd.boolean_index db (Pd.eq_value (Pd.column db pest_col) pest)
  = rows_where db (fun r => Pd.same_value (pest_of db pest_col r) pest).
Proof.
  unfold Pd.boolean_index, Pd.eq_value, Pd.column, rows_where. f_equal.
  rewrite map_map. apply mask_rows_map.
Qed.

(** ** The [.str] accessor *)

Lemma str_accessor_accepted (col : list cell) :
  Pd.accepts_str col = true → Pd.str_accessor col = Ok col.
Proof. intros H. unfold Pd.str_accessor. rewrite H. reflexivity. Qed.

Lemma str_accessor_refused (col : list cell) :
  Pd.accepts_str col = false →
  Pd.str_accessor col
  = Raise (AttributeError "Can only use .str accessor with string values!").
Proof. intros H. unfold Pd.str_accessor. rewrite H. reflexivity. Qed.

(** Lower-casing keeps text text, so the second accessor of the chain
    accepts what the first accepted. *)
Lemma accepts_str_lowered (col : list cell) :
  Pd.accepts_str
    (map (fun c => match c with CStr s => CStr (Str.lower s) | NaN => NaN end) col)
  = Pd.accepts_str col.
Proof.
  assert (Htext : ∀ l : list cell,
            existsb Pd.is_text
              (map (fun c => match c with CStr s => CStr (Str.lower s) | NaN => NaN end) l)
            = existsb Pd.is_text l).
  { induction l as [|x l IH]; [reflexivity|]. simpl. rewrite IH. destruct x; reflexivity. }
  destruct col as [|c col]; [reflexivity|]. apply (Htext (c :: col)).
Qed.

(** A column with a text cell is accepted. *)
Lemma accepts_str_text (col : list cell) (s : string) :
  CStr s ∈ col → Pd.accepts_str col = true.
Proof.
  intros Hin. destruct col as [|c col]; [reflexivity|]. unfold Pd.accepts_str.
  apply existsb_exists. exists (CStr s). split; [apply list_elem_of_In, Hin | reflexivity].
Qed.

(** An accepted column that has rows has a text cell. *)
Lemma accepts_str_rows (col : list cell) :
  Pd.accepts_str col = true → col ≠ [] → ∃ s, CStr s ∈ col.
Proof.
  intros H Hne. destruct col as [|c col]; [contradiction|]. unfold Pd.accepts_str in H.
  apply existsb_exists in H as ([s|] & Hin & Ht); [|discriminate].
  exists s. apply list_elem_of_In, Hin.
Qed.

(** On a column the accessor refuses, the direct match raises, whatever
    the query. *)
Lemma direct_match_refused extern (db : DataFrame) (pest_col q : string) :
  Pd.accepts_str (Pd.column db pest_col) = false →
  PesticideRecommender.direct_match extern db pest_col q
  = Raise (AttributeError "Can only use .str accessor with string values!").
Proof.
  intros H. unfold PesticideRecommender.direct_match, Pd.str_lower.
  rewrite (str_accessor_refused _ H). reflexivity.
Qed.

(** The rows the direct match selects, once the accessor has accepted the
    column and the pattern has compiled. *)
Lemma direct_match_rows extern (db : DataFrame) (pest_col q : string)
    (found : string → bool) :
  Pd.accepts_str (Pd.column db pest_col) = true →
  Re.compile extern q = Ok found →
  PesticideRecommender.direct_match extern db pest_col q
  = Ok (rows_where db (fun r =>
          match pest_of db pest_col r with
          | CStr s => found (Str.lower s)
          | NaN => false
          end)).
Proof.
  intros Ha Hc. unfold PesticideRecommender.direct_match, Pd.str_lower, Pd.str_contains.
  rewrite (str_accessor_accepted _ Ha). cbn [result_bind].
  rewrite str_accessor_accepted by (rewrite accepts_str_lowered; exact Ha).
  cbn [result_bind]. rewrite Hc. cbn [result_bind]. f_equal.
  unfold Pd.boolean_index, Pd.column, rows_where. f_equal.
  rewrite !map_map. rewrite <- mask_rows_map. f_equal.
  apply map_ext. intros r. unfold pest_of.
  destruct (Pd.lookup_label (columns db) r pest_col); reflexivity.
Qed.

(** The three ways the direct match can end. *)
Lemma direct_match_cases extern (db : DataFrame) (pest_col q : string) :
  (Pd.accepts_str (Pd.column db pest_col) = false
   ∧ PesticideRecommender.direct_match extern db pest_col q
     = Raise (AttributeError "Can only use .str accessor with string values!"))
  ∨ (Pd.accepts_str (Pd.column db pest_col) = true
     ∧ ∃ e, Re.compile extern q = Raise e
            ∧ PesticideRecommender.direct_match extern db pest_col q = Raise e)
  ∨ (Pd.accepts_str (Pd.column db pest_col) = true
     ∧ ∃ found, Re.compile extern q = Ok found
                ∧ PesticideRecommender.direct_match extern db pest_col q
                  = Ok (rows_where db (fun r =>
                          match pest_of db pest_col r with
                          | CStr s => found (Str.lower s)
                          | NaN => false
                          end))).
Proof.
  destruct (Pd.accepts_str (Pd.column db pest_col)) eqn:Ha.
  - right. destruct (Re.compile extern q) as [found|e] eqn:Hc.
    + right. split; [reflexivity|]. exists found. split; [reflexivity|].
      apply direct_match_rows; assumption.
    + left. split; [reflexivity|]. exists e. split; [reflexivity|].
      unfold PesticideRecommender.direct_match, Pd.str_lower, Pd.str_contains.
      rewrite (str_accessor_accepted _ Ha). cbn [result_bind].
      rewrite str_accessor_accepted by (rewrite accepts_str_lowered; exact Ha).
      cbn [result_bind]. rewrite Hc. reflexivity.
  - left. split; [reflexivity|]. apply direct_match_refused, Ha.
Qed.

(** A query without metacharacters selects, on the direct path, exactly
    the rows whose pest name contains it. *)
Lemma direct_match_plain extern (db : DataFrame) (pest_col q : string) :
  Pd.accepts_str (Pd.column db pest_col) = true →
  Re.plain q = true →
  PesticideRecommender.direct_match extern db pest_col q
  = Ok (rows_where db (name_contains db pest_col q)).
Proof.
  intros Ha Hp. rewrite (direct_match_rows extern db pest_col q (Re.search q)).
  - f_equal. unfold rows_where. f_equal. apply filter_ext. intros r.
    unfold name_contains. destruct (pest_of db pest_col r); [|reflexivity].
    apply search_plain, Hp.
  - exact Ha.
  - apply compile_in_fragment, plain_in_fragment, Hp.
Qed.

(** A row that passes a test on its text name witnesses a text cell. *)
Lemma selected_row_accepts (db : DataFrame) (pest_col : string) (keep : list cell → bool) :
  (∀ r, keep r = true → has_name db pest_col r = true) →
  rows (rows_where db keep) ≠ [] →
  Pd.accepts_str (Pd.column db pest_col) = true.
Proof.
  intros Hkeep Hne. simpl in Hne.
  destruct (List.filter keep (rows db)) as [|r rs] eqn:Hf; [contradiction|].
  assert (Hr : In r (List.filter keep (rows db))) by (rewrite Hf; left; reflexivity).
  apply filter_In in Hr as [Hin Hk]. apply Hkeep in Hk. unfold has_name in Hk.
  destruct (pest_of db pest_col r) as [s|] eqn:Hs; [|discriminate].
  apply (accepts_str_text _ s). unfold Pd.column. apply list_elem_of_In, in_map_iff.
  exists r. split; [exact Hs | exact Hin].
Qed.

Lemma name_contains_has_name (db : DataFrame) (pest_col q : string) (r : list cell) :
  name_contains db pest_col q r = true → has_name db pest_col r = true.
Proof. unfold name_contains, has_name. destruct (pest_of db pest_col r); auto. Qed.

(** ** The partial-match loop *)

(** Running the loop over the distinct names is running it over the column. *)
Lemma partial_loop_unique_from (db : DataFrame) (pest_col q : string)
    (m : DataFrame) (col seen : list cell) :
  (∀ c, c ∈ seen → PesticideRecommender.partial_match q c = false) →
  PesticideRecommender.partial_loop db pest_col q (Pd.unique_from seen col) m
  = PesticideRecommender.partial_loop db pest_col q col m.
Proof.
  revert seen. induction col as [|c col IH]; intros seen Hseen; simpl; [reflexivity|].
  case_bool_decide as Hin.
  - rewrite (Hseen c Hin). apply IH, Hseen.
  - simpl. destruct (PesticideRecommender.partial_match q c) eqn:Hc; [reflexivity|].
    apply IH. intros c' [->|Hc']%elem_of_cons; auto.
Qed.

Lemma partial_loop_unique (db : DataFrame) (pest_col q : string)
    (m : DataFrame) (col : list cell) :
  PesticideRecommender.partial_loop db pest_col q (Pd.unique col) m
  = PesticideRecommender.partial_loop db pest_col q col m.
Proof. apply partial_loop_unique_from. intros c Hc. inversion Hc. Qed.

(** The loop stops at the first name that passes the test. *)
Lemma partial_loop_first (db : DataFrame) (pest_col q : string)
    (m : DataFrame) (col : list cell) (i : nat) (pest : cell) :
  col !! i = Some pest →
  PesticideRecommender.partial_match q pest = true →
  (∀ j other, j < i → col !! j = Some other →
     PesticideRecommender.partial_match q other = false) →
  PesticideRecommender.partial_loop db pest_col q col m
  = Pd.boolean_index db (Pd.eq_value (Pd.column db pest_col) pest).
Proof.
  revert i. induction col as [|c col IH]; intros i Hi Hp Hbefore; [discriminate|].
  destruct i as [|i]; simpl in *.
  - injection Hi as ->. rewrite Hp. reflexivity.
  - rewrite (Hbefore 0 c) by (lia || reflexivity).
    apply (IH i); [exact Hi | exact Hp |].
    intros j other Hj Hother. apply (Hbefore (S j) other); [lia | exact Hother].
Qed.

Lemma partial_loop_none (db : DataFrame) (pest_col q : string)
    (m : DataFrame) (col : list cell) :
  (∀ c, c ∈ col → PesticideRecommender.partial_match q c = false) →
  PesticideRecommender.partial_loop db pest_col q col m = m.
Proof.
  induction col as [|c col IH]; intros H; simpl; [reflexivity|].
  rewrite (H c) by apply list_elem_of_here.
  apply IH. intros c' Hc'. apply H, list_elem_of_further, Hc'.
Qed.

(** The bidirectional test, spelled out. *)
Lemma partial_match_spec (q : string) (pest : cell) :
  PesticideRecommender.partial_match q pest = true ↔
  (∃ pre post, Str.lower (Pd.py_str pest) = pre +:+ q +:+ post)
  ∨ (∃ pre post, q = pre +:+ Str.lower (Pd.py_str pest) +:+ post).
Proof.
  unfold PesticideRecommender.partial_match.
  rewrite orb_true_iff, !str_in_spec. reflexivity.
Qed.

(** ** [get_recommendations], path by path *)

Section Paths.
Variable extern : string → result (string → bool).
Variables (db : DataFrame) (pest_name pest_col pesticide_col : string).
Hypothesis Hcols :
  PesticideRecommender.find_columns (columns db) None None
  = (Some pest_col, Some pesticide_col).

Lemma get_recommendations_direct (m : DataFrame) :
  PesticideRecommender.direct_match extern db pest_col (clean pest_name) = Ok m →
  Pd.empty m = false →
  PesticideRecommender.get_recommendations extern (Some db) pest_name
  = Ok (records pest_col pesticide_col m).
Proof.
  intros Hm He. unfold PesticideRecommender.get_recommendations.
  rewrite Hcols. fold (clean pest_name). rewrite Hm. simpl. rewrite He. reflexivity.
Qed.

Lemma get_recommendations_partial (m : DataFrame) :
  PesticideRecommender.direct_match extern db pest_col (clean pest_name) = Ok m →
  Pd.empty m = true →
  PesticideRecommender.get_recommendations extern (Some db) pest_name
  = Ok (records pest_col pesticide_col
          (PesticideRecommender.partial_loop db pest_col (clean pest_name)
             (Pd.column db pest_col) m)).
Proof.
  intros Hm He. unfold PesticideRecommender.get_recommendations.
  rewrite Hcols. fold (clean pest_name). rewrite Hm. simpl. rewrite He.
  rewrite partial_loop_unique. reflexivity.
Qed.

Lemma get_recommendations_raise (e : exn) :
  PesticideRecommender.direct_match extern db pest_col (clean pest_name) = Raise e →
  PesticideRecommender.get_recommendations extern (Some db) pest_name = Raise e.
Proof.
  intros Hm. unfold PesticideRecommender.get_recommendations.
  rewrite Hcols. fold (clean pest_name). rewrite Hm. reflexivity.
Qed.
End Paths.


Lemma records_no_rows (pest_col pesticide_col : string) (m : DataFrame) :
  rows m = [] → records pest_col pesticide_col m = [].
Proof. intros H. unfold records, Pd.iterrows. rewrite H. reflexivity. Qed.



Lemma filter_none {A : Type} (f : A → bool) (l : list A) :
  (∀ x, In x l → f x = false) → List.filter f l = [].
Proof.
  induction l as [|x l IH]; intros H; simpl; [reflexivity|].
  rewrite (H x) by (left; reflexivity). apply IH. intros y Hy. apply H. right. exact Hy.
Qed.

Lemma filter_nil_none {A : Type} (f : A → bool) (l : list A) :
  List.filter f l = [] → ∀ x, In x l → f x = false.
Proof.
  induction l as [|x l IH]; simpl; intros H y Hy; [contradiction|].
  destruct (f x) eqn:Hx; [discriminate|].
  destruct Hy as [<-|Hy]; [exact Hx | apply IH; assumption].
Qed.


(** ** The direct match *)

(** C1, at the query [a.hid] on the default table.  The claim is that the
    direct path returns exactly the rows whose pest name contains the
    query as a substring.  No default pest name contains [a.hid], yet the
    direct match selects the three aphid rows: [str.contains] reads the
    query as a regular expression, in which the dot stands for any
    character. *)
Theorem direct_match_reads_query_as_pattern :
  let db := PesticideRecommender.default_database in
  (∀ extern,
     PesticideRecommender.direct_match extern db "pest_name" (clean "a.hid")
     = Ok (rows_where db (name_contains db "pest_name" "aphid")))
  ∧ length (rows (rows_where db (name_contains db "pest_name" "aphid"))) = 3
  ∧ rows (rows_where db (name_contains db "pest_name" (clean "a.hid"))) = []
  ∧ (∀ extern,
       PesticideRecommender.get_recommendations extern (Some db) "a.hid"
       = Ok (records "pest_name" "pesticide_name"
               (rows_where db (name_contains db "pest_name" "aphid")))).
Proof.
  cbv zeta. split; [|split; [|split]].
  - intros extern. reflexivity.
  - reflexivity.
  - reflexivity.
  - intros extern. reflexivity.
Qed.

(** Where the query has no metacharacter the direct path does return
    exactly the rows whose pest name contains the cleaned query, in the
    order of the table. *)
Lemma get_recommendations_direct_plain extern (db : DataFrame)
    (q pest_col pesticide_col : string) :
  PesticideRecommender.find_columns (columns db) None None
  = (Some pest_col, Some pesticide_col) →
  Re.plain (clean q) = true →
  rows (rows_where db (name_contains db pest_col (clean q))) ≠ [] →
  PesticideRecommender.get_recommendations extern (Some db) q
  = Ok (records pest_col pesticide_col
          (rows_where db (name_contains db pest_col (clean q)))).
Proof.
  intros Hcols Hp Hne.
  apply (get_recommendations_direct extern db q pest_col pesticide_col Hcols).
  - apply direct_match_plain; [|exact Hp].
    apply (selected_row_accepts db pest_col _ (name_contains_has_name db pest_col _) Hne).
  - unfold Pd.empty. destruct (rows _); [contradiction | reflexivity].
Qed.

(** ** Queries that match nothing, and the empty query *)




(** ** The partial match *)

Lemma same_value_text (c : cell) (s : string) :
  Pd.same_value c (CStr s) = bool_decide (c = CStr s).
Proof.
  destruct c as [a|]; simpl; [|reflexivity].
  do 2 case_bool_decide; congruence.
Qed.

Lemma partial_match_occurs (q : string) (pest : cell) :
  PesticideRecommender.partial_match q pest = true
  ↔ occurs_in q (Str.lower (Pd.py_str pest)) ∨ occurs_in (Str.lower (Pd.py_str pest)) q.
Proof. apply partial_match_spec. Qed.

Lemma partial_match_not_occurs (q : string) (pest : cell) :
  ¬ (occurs_in q (Str.lower (Pd.py_str pest)) ∨ occurs_in (Str.lower (Pd.py_str pest)) q) →
  PesticideRecommender.partial_match q pest = false.
Proof.
  intros H. destruct (PesticideRecommender.partial_match q pest) eqn:Hp; [|reflexivity].
  exfalso. apply H, partial_match_occurs, Hp.
Qed.

(** Where the direct match is the substring test (a query without
    metacharacters, on a column of text) and no pest name contains the
    query, the fallback runs as described: the first name in table order
    that contains the query or occurs in it decides, every row of that
    name is returned, in table order, and when no name passes the result
    is empty. *)
Lemma partial_path_plain_query extern (db : DataFrame)
    (q pest_col pesticide_col : string) :
  PesticideRecommender.find_columns (columns db) None None
  = (Some pest_col, Some pesticide_col) →
  Re.plain (clean q) = true →
  Pd.accepts_str (Pd.column db pest_col) = true →
  (∀ r s, r ∈ rows db → pest_of db pest_col r = CStr s →
          ¬ occurs_in (clean q) (Str.lower s)) →
  (∀ i s,
     Pd.column db pest_col !! i = Some (CStr s) →
     occurs_in (clean q) (Str.lower s) ∨ occurs_in (Str.lower s) (clean q) →
     (∀ j other, j < i → Pd.column db pest_col !! j = Some other →
        ¬ (occurs_in (clean q) (Str.lower (Pd.py_str other))
           ∨ occurs_in (Str.lower (Pd.py_str other)) (clean q))) →
     PesticideRecommender.get_recommendations extern (Some db) q
     = Ok (records pest_col pesticide_col
             (rows_where db (fun r => bool_decide (pest_of db pest_col r = CStr s)))))
  ∧ ((∀ other, other ∈ Pd.column db pest_col →
        ¬ (occurs_in (clean q) (Str.lower (Pd.py_str other))
           ∨ occurs_in (Str.lower (Pd.py_str other)) (clean q))) →
     PesticideRecommender.get_recommendations extern (Some db) q = Ok []).
Proof.
  intros Hcols Hp Ha Hnone.
  pose proof (direct_match_plain extern db pest_col (clean q) Ha Hp) as Hd.
  assert (Hrows : rows (rows_where db (name_contains db pest_col (clean q))) = []).
  { simpl. apply filter_none. intros r Hr. unfold name_contains.
    destruct (pest_of db pest_col r) as [s|] eqn:Hs; [|reflexivity].
    destruct (Str.str_in (clean q) (Str.lower s)) eqn:Hin; [|reflexivity].
    exfalso. apply (Hnone r s); [apply list_elem_of_In, Hr | exact Hs|].
    apply str_in_spec, Hin. }
  assert (He : Pd.empty (rows_where db (name_contains db pest_col (clean q))) = true)
    by (unfold Pd.empty; rewrite Hrows; reflexivity).
  pose proof (get_recommendations_partial extern db q pest_col pesticide_col
                Hcols _ Hd He) as Hrec.
  split.
  - intros i s Hi Hpass Hbefore. rewrite Hrec.
    rewrite (partial_loop_first db pest_col (clean q) _ _ i (CStr s) Hi).
    + rewrite eq_value_rows. do 2 f_equal. unfold rows_where. f_equal.
      apply filter_ext. intros r. apply same_value_text.
    + apply partial_match_occurs, Hpass.
    + intros j other Hj Hother. apply partial_match_not_occurs, (Hbefore j other Hj Hother).
  - intros Hno. rewrite Hrec, partial_loop_none.
    + rewrite (records_no_rows _ _ _ Hrows). reflexivity.
    + intros pest Hpest. apply partial_match_not_occurs, Hno, Hpest.
Qed.

(** C5, at the query [a.hid] on the default table.  The claim is that a
    query with no direct substring match is answered by the fallback.
    No default pest name contains [a.hid], and none contains it or occurs
    in it, so by the claim the fallback would run and find nothing.  The
    code does not fall back: its direct match is a pattern search, which
    selects the three aphid rows, and these are returned. *)
Theorem fallback_skipped_on_pattern_match :
  let db := PesticideRecommender.default_database in
  (∀ pest, pest ∈ Pd.column db "pest_name" →
           ¬ occurs_in (clean "a.hid") (Str.lower (Pd.py_str pest))
           ∧ ¬ occurs_in (Str.lower (Pd.py_str pest)) (clean "a.hid"))
  ∧ (∀ extern,
       PesticideRecommender.get_recommendations extern (Some db) "a.hid"
       = Ok (records "pest_name" "pesticide_name"
               (rows_where db (fun r => bool_decide (pest_of db "pest_name" r = CStr "aphid")))))
  ∧ length (records "pest_name" "pesticide_name"
              (rows_where db (fun r => bool_decide (pest_of db "pest_name" r = CStr "aphid"))))
    = 3.
Proof.
  cbv zeta. split; [|split].
  - intros pest Hpest.
    assert (Hno : Str.str_in (clean "a.hid") (Str.lower (Pd.py_str pest)) = false
                  ∧ Str.str_in (Str.lower (Pd.py_str pest)) (clean "a.hid") = false).
    { vm_compute in Hpest.
      repeat (apply elem_of_cons in Hpest as [->|Hpest]; [split; reflexivity|]).
      inversion Hpest. }
    destruct Hno as [H1 H2]. split; intros H; apply str_in_spec in H; congruence.
  - intros extern. reflexivity.
  - reflexivity.
Qed.

(** ** The records *)

Lemma direct_match_columns extern (db : DataFrame) (pest_col q : string) (m : DataFrame) :
  PesticideRecommender.direct_match extern db pest_col q = Ok m →
  columns m = columns db.
Proof.
  destruct (direct_match_cases extern db pest_col q)
    as [[_ Hd]|[[_ [e [_ Hd]]]|[_ [found [_ Hd]]]]]; rewrite Hd; intros H;
    [discriminate | discriminate |].
  injection H as <-. reflexivity.
Qed.

Lemma partial_loop_columns (db : DataFrame) (pest_col q : string)
    (pests : list cell) (m : DataFrame) :
  columns m = columns db →
  columns (PesticideRecommender.partial_loop db pest_col q pests m) = columns db.
Proof.
  intros Hm. induction pests as [|pest pests IH]; simpl; [exact Hm|].
  destruct (PesticideRecommender.partial_match q pest); [reflexivity | exact IH].
Qed.

(** Whatever the path, the records come from a frame with the columns of
    the table. *)
Lemma get_recommendations_frame extern (db : DataFrame) (q : string)
    (recs : list (list (string * cell))) :
  PesticideRecommender.get_recommendations extern (Some db) q = Ok recs →
  ∃ pest_col pesticide_col m,
    columns m = columns db ∧ recs = records pest_col pesticide_col m.
Proof.
  unfold PesticideRecommender.get_recommendations.
  destruct (PesticideRecommender.find_columns _ _ _) as [[pest_col|] [pesticide_col|]];
    try (intros H; injection H as <-;
         exists "", "", {| columns := columns db; rows := [] |};
         split; reflexivity).
  destruct (PesticideRecommender.direct_match _ _ _ _) as [m|e] eqn:Hm; simpl;
    intros H; [|discriminate].
  injection H as <-. apply direct_match_columns in Hm.
  exists pest_col, pesticide_col. eexists. split; [|reflexivity].
  destruct (Pd.empty m); [|exact Hm]. apply partial_loop_columns, Hm.
Qed.

(** A record has one of four shapes, by the two optional columns. *)
Ltac by_optional_columns :=
  unfold PesticideRecommender.to_rec, Pd.series_mem; do 2 case_bool_decide.

Lemma to_rec_keys (pest_col pesticide_col : string) (row : Series) :
  Dict.keys (PesticideRecommender.to_rec pest_col pesticide_col row)
  = rec_keys (index row).
Proof. unfold rec_keys. by_optional_columns; reflexivity. Qed.

Lemma to_rec_pesticide_name (pest_col pesticide_col : string) (row : Series) :
  PestDetectionApp.getitem (PesticideRecommender.to_rec pest_col pesticide_col row)
    "pesticide_name"
  = Raise (KeyError "pesticide_name").
Proof. by_optional_columns; reflexivity. Qed.

Lemma show_recommendations_to_rec (i : nat) (pest_col pesticide_col : string)
    (row : Series) (rest : list (list (string * cell))) :
  ∃ key,
    PestDetectionApp.show_recommendations i
      (PesticideRecommender.to_rec pest_col pesticide_col row :: rest)
    = ([], Raise (KeyError key)).
Proof. by_optional_columns; eexists; reflexivity. Qed.

(** C6, for every table and query.  A record carries the keys [pest_name]
    and [pesticide], then [application_rate] and [effectiveness] when the
    table has those columns.  It has no [pesticide_name] key, the one the
    page reads, so the page stops with a [KeyError] on the first record of
    any non-empty result. *)
Theorem recommendation_record_keys (env : Env) (db : DataFrame) (q : string)
    (recs : list (list (string * cell))) :
  PesticideRecommender.get_recommendations (re_extern env) (Some db) q = Ok recs →
  Forall (fun rec =>
            Dict.keys rec = rec_keys (columns db)
            ∧ PestDetectionApp.getitem rec "pesticide_name"
              = Raise (KeyError "pesticide_name")) recs
  ∧ (recs ≠ [] →
     ∃ key,
       PestDetectionApp.display_pesticide_recommendations env
         {| PesticideRecommender.pesticide_db := Some db |} q
       = ([PestDetectionApp.recommendations_header;
           PestDetectionApp.st_success (length recs) q],
          Raise (KeyError key))).
Proof.
  intros Hrec.
  destruct (get_recommendations_frame _ _ _ _ Hrec) as (pc & kc & m & Hcols & ->).
  split.
  - unfold records, Pd.iterrows. rewrite Forall_map, Forall_map.
    apply Forall_forall. intros r _. split.
    + rewrite to_rec_keys. simpl. rewrite Hcols. reflexivity.
    + apply to_rec_pesticide_name.
  - intros Hne. unfold PestDetectionApp.display_pesticide_recommendations.
    cbn [PesticideRecommender.pesticide_db].
    rewrite Hrec. unfold records, Pd.iterrows in *.
    destruct (rows m) as [|r rs]; [contradiction|]. cbn [map].
    destruct (show_recommendations_to_rec 1 pc kc
                {| index := columns m; values := r |}
                (map (PesticideRecommender.to_rec pc kc)
                   (map (fun r => {| index := columns m; values := r |}) rs)))
      as [key Hkey].
    exists key. rewrite Hkey. reflexivity.
Qed.

Lemma recommendation_record_keys_witness :
  ∃ key,
    PestDetectionApp.display_pesticide_recommendations blank_env
      {| PesticideRecommender.pesticide_db := Some PesticideRecommender.default_database |}
      "aphid"
    = ([PestDetectionApp.recommendations_header; PestDetectionApp.st_success 3 "aphid"],
       Raise (KeyError key)).
Proof.
  refine (proj2 (recommendation_record_keys blank_env
                   PesticideRecommender.default_database "aphid" _ eq_refl) _).
  discriminate.
Defined.

(** ** The arg-max *)

Lemma argmax_from_spec (l pre : list Q) (best : nat) (bv : Q) :
  pre !! best = Some bv →
  (∀ j x, pre !! j = Some x → (x <= bv)%Q) →
  (∀ j x, j < best → pre !! j = Some x → (x < bv)%Q) →
  ∃ v, (pre ++ l) !! PestDetector.argmax_from best bv (length pre) l = Some v
       ∧ (∀ j x, (pre ++ l) !! j = Some x → (x <= v)%Q)
       ∧ (∀ j x, j < PestDetector.argmax_from best bv (length pre) l →
            (pre ++ l) !! j = Some x → (x < v)%Q).
Proof.
  revert pre best bv. induction l as [|x l IH]; intros pre best bv Hbest Hmax Hfirst.
  - simpl. rewrite app_nil_r. exists bv. auto.
  - simpl. replace (pre ++ x :: l) with ((pre ++ [x]) ++ l)
      by (rewrite <- app_assoc; reflexivity).
    replace (S (length pre)) with (length (pre ++ [x]))
      by (rewrite length_app; simpl; lia).
    destruct (Qle_bool x bv) eqn:Hx.
    + apply Qle_bool_iff in Hx. apply IH.
      * apply lookup_app_l_Some, Hbest.
      * intros j y Hj. apply lookup_app_Some in Hj as [Hj|[_ Hj]]; [eauto|].
        apply list_lookup_singleton_Some in Hj as [_ <-]. exact Hx.
      * intros j y Hlt Hj. apply lookup_lt_Some in Hbest.
        rewrite lookup_app_l in Hj by lia. eauto.
    + assert (Hlt : (bv < x)%Q).
      { apply Qnot_le_lt. intros H. apply Qle_bool_iff in H. congruence. }
      apply IH.
      * rewrite lookup_app_r by lia. rewrite Nat.sub_diag. reflexivity.
      * intros j y Hj. apply lookup_app_Some in Hj as [Hj|[_ Hj]].
        -- apply Qlt_le_weak. eapply Qle_lt_trans; [eapply Hmax, Hj | exact Hlt].
        -- apply list_lookup_singleton_Some in Hj as [_ <-]. apply Qle_refl.
      * intros j y Hj Hy. rewrite lookup_app_l in Hy by exact Hj.
        eapply Qle_lt_trans; [eapply Hmax, Hy | exact Hlt].
Qed.

(** [argmax] of a non-empty vector is the first position of its largest
    entry. *)
Lemma argmax_spec (predictions : list Q) :
  predictions ≠ [] →
  ∃ class_idx confidence,
    PestDetector.argmax predictions = Ok class_idx
    ∧ predictions !! class_idx = Some confidence
    ∧ (∀ j p, predictions !! j = Some p → (p <= confidence)%Q)
    ∧ (∀ j p, j < class_idx → predictions !! j = Some p → (p < confidence)%Q).
Proof.
  destruct predictions as [|x l]; [contradiction|]. intros _.
  destruct (argmax_from_spec l [x] 0 x) as (v & Hv & Hmax & Hfirst).
  - reflexivity.
  - intros j y Hj. apply list_lookup_singleton_Some in Hj as [_ <-]. apply Qle_refl.
  - intros j y Hj. lia.
  - exists (PestDetector.argmax_from 0 x 1 l), v. simpl in *. auto.
Qed.

(** ** The reverse index *)

Lemma reverse_mapping_from_other (cm : list (string * Z)) (m : gmap Z string) (i : Z) :
  i ∉ Dict.values cm →
  fold_left (fun m kv => <[snd kv := fst kv]> m) cm m !! i = m !! i.
Proof.
  revert m. induction cm as [|[k v] cm IH]; intros m Hi; simpl; [reflexivity|].
  unfold Dict.values in Hi. simpl in Hi. apply not_elem_of_cons in Hi as [Hne Hi].
  rewrite IH by exact Hi. apply lookup_insert_ne. congruence.
Qed.

Lemma reverse_mapping_from_item (cm : list (string * Z)) (m : gmap Z string)
    (name : string) (i : Z) :
  NoDup (Dict.values cm) → (name, i) ∈ cm →
  fold_left (fun m kv => <[snd kv := fst kv]> m) cm m !! i = Some name.
Proof.
  revert m. induction cm as [|[k v] cm IH]; intros m Hnd Hin; [inversion Hin|].
  unfold Dict.values in Hnd. simpl in Hnd. apply NoDup_cons in Hnd as [Hv Hnd].
  simpl. apply elem_of_cons in Hin as [Heq|Hin].
  - injection Heq as -> ->. rewrite reverse_mapping_from_other by exact Hv.
    apply lookup_insert_eq.
  - apply IH; assumption.
Qed.

(** An index that is no value of the class mapping has no name. *)
Lemma reverse_mapping_None (cm : list (string * Z)) (i : Z) :
  i ∉ Dict.values cm → PestDetector.reverse_mapping cm !! i = None.
Proof.
  intros Hi. unfold PestDetector.reverse_mapping.
  rewrite reverse_mapping_from_other by exact Hi. apply lookup_empty.
Qed.

(** Where no two classes share an index, the reverse index inverts the
    class mapping. *)
Lemma reverse_mapping_Some (cm : list (string * Z)) (name : string) (i : Z) :
  NoDup (Dict.values cm) → (name, i) ∈ cm →
  PestDetector.reverse_mapping cm !! i = Some name.
Proof. apply reverse_mapping_from_item. Qed.

Lemma init_reverse_mapping (env : Env) (mp cp : string) (self : PestDetector.t) :
  PestDetector.__init__ env mp cp = Ok self →
  PestDetector.idx_to_class self
  = PestDetector.reverse_mapping (PestDetector.class_mapping self).
Proof.
  unfold PestDetector.__init__.
  destruct (negb (path_exists env mp)); [discriminate|].
  destruct (load_model env mp); simpl; [|discriminate].
  destruct (negb (path_exists env cp)); [discriminate|].
  destruct (json_load env cp); simpl; [|discriminate].
  intros H. injection H as <-. reflexivity.
Qed.

(** ** [predict_pest] *)

Lemma predict_pest_decoded (env : Env) (self : PestDetector.t) (img_path : string)
    (x : Tensor) (predictions : list Q) (class_idx : nat) (confidence : Q) :
  PestDetector.preprocess_image env img_path = Ok x →
  PestDetector.model self x = Ok predictions →
  PestDetector.argmax predictions = Ok class_idx →
  predictions !! class_idx = Some confidence →
  PestDetector.predict_pest env self img_path
  = Ok (default "Unknown" (PestDetector.idx_to_class self !! Z.of_nat class_idx),
        confidence).
Proof.
  intros Hx Hp Ha Hc. unfold PestDetector.predict_pest.
  rewrite Hx. simpl. rewrite Hp. simpl. rewrite Ha. simpl.
  rewrite nth_lookup, Hc. reflexivity.
Qed.

(** C7.  Whatever non-empty vector the model returns for the image,
    [predict_pest] returns the probability at the arg-max index (the first
    position of the largest entry) and the class name the reverse index
    holds for that index, which is the class the mapping gives that index
    when the mapping has no two classes on one index. *)
Theorem predict_pest_returns_argmax (env : Env) (self : PestDetector.t)
    (img_path : string) (x : Tensor) (predictions : list Q) :
  PestDetector.preprocess_image env img_path = Ok x →
  PestDetector.model self x = Ok predictions →
  predictions ≠ [] →
  ∃ class_idx confidence,
    predictions !! class_idx = Some confidence
    ∧ (∀ j p, predictions !! j = Some p → (p <= confidence)%Q)
    ∧ (∀ j p, j < class_idx → predictions !! j = Some p → (p < confidence)%Q)
    ∧ (∀ name,
         PestDetector.idx_to_class self !! Z.of_nat class_idx = Some name →
         PestDetector.predict_pest env self img_path = Ok (name, confidence))
    ∧ (∀ name,
         PestDetector.idx_to_class self
         = PestDetector.reverse_mapping (PestDetector.class_mapping self) →
         NoDup (Dict.values (PestDetector.class_mapping self)) →
         (name, Z.of_nat class_idx) ∈ PestDetector.class_mapping self →
         PestDetector.predict_pest env self img_path = Ok (name, confidence)).
Proof.
  intros Hx Hp Hne.
  destruct (argmax_spec predictions Hne) as (class_idx & confidence & Ha & Hc & Hmax & Hfirst).
  exists class_idx, confidence.
  pose proof (predict_pest_decoded env self img_path x predictions class_idx confidence
                Hx Hp Ha Hc) as Hres.
  repeat split; try assumption.
  - intros name Hname. rewrite Hres, Hname. reflexivity.
  - intros name Hrev Hnd Hin. rewrite Hres, Hrev.
    rewrite (reverse_mapping_Some _ name _ Hnd Hin). reflexivity.
Qed.

Lemma predict_pest_returns_argmax_witness :
  PestDetector.predict_pest trained_env trained_detector "leaf.jpg"
  = Ok ("mite", (7 # 10)%Q).
Proof.
  destruct (predict_pest_returns_argmax trained_env trained_detector "leaf.jpg"
              [(0 / 255)%Q; (128 / 255)%Q; (255 / 255)%Q]
              [(1 # 10); (7 # 10); (2 # 10)]%Q eq_refl eq_refl)
    as (class_idx & confidence & Hc & Hmax & Hfirst & Hname & _).
  - discriminate.
  - destruct class_idx as [|[|[|k]]]; try discriminate Hc.
    + injection Hc as <-.
      exfalso. assert (H := Hmax 1 (7 # 10)%Q eq_refl). revert H. apply Qlt_not_le.
      reflexivity.
    + injection Hc as <-. apply Hname. reflexivity.
    + injection Hc as <-.
      exfalso. assert (H := Hmax 1 (7 # 10)%Q eq_refl). revert H. apply Qlt_not_le.
      reflexivity.
Defined.

(** C10.  On a detector built by [__init__], when the arg-max index is no
    value of the loaded class mapping, [predict_pest] returns "Unknown"
    with the probability at that index; no lookup error is raised. *)
Theorem predict_pest_unknown_class (env : Env) (mp cp : string)
    (self : PestDetector.t) (img_path : string) (x : Tensor)
    (predictions : list Q) (class_idx : nat) (confidence : Q) :
  PestDetector.__init__ env mp cp = Ok self →
  PestDetector.preprocess_image env img_path = Ok x →
  PestDetector.model self x = Ok predictions →
  PestDetector.argmax predictions = Ok class_idx →
  predictions !! class_idx = Some confidence →
  Z.of_nat class_idx ∉ Dict.values (PestDetector.class_mapping self) →
  PestDetector.predict_pest env self img_path = Ok ("Unknown", confidence).
Proof.
  intros Hinit Hx Hp Ha Hc Hnot.
  rewrite (predict_pest_decoded env self img_path x predictions class_idx confidence
             Hx Hp Ha Hc).
  rewrite (init_reverse_mapping env mp cp self Hinit).
  rewrite (reverse_mapping_None _ _ Hnot). reflexivity.
Qed.

Lemma predict_pest_unknown_class_witness :
  ∃ self,
    PestDetector.__init__ stale_mapping_env
      PestDetector.model_path PestDetector.mapping_path = Ok self
    ∧ PestDetector.predict_pest stale_mapping_env self "leaf.jpg"
      = Ok ("Unknown", (6 # 10)%Q).
Proof.
  eexists. split; [reflexivity|].
  eapply (predict_pest_unknown_class stale_mapping_env
            PestDetector.model_path PestDetector.mapping_path _ "leaf.jpg" _ _ 2);
    [reflexivity | reflexivity | reflexivity | reflexivity | reflexivity |].
  simpl. intros H. repeat (apply elem_of_cons in H as [H|H]; [lia|]). inversion H.
Defined.

(** ** Construction and start-up *)

(** C9, refuted where the model file is present but does not load and the
    class mapping is missing: construction raises the loader's error, not a
    not-found error. *)
Lemma missing_mapping_behind_unloadable_model :
  loaders_find_existing unloadable_model_env
  ∧ path_exists unloadable_model_env PestDetector.mapping_path = false
  ∧ PestDetector.__init__ unloadable_model_env
      PestDetector.model_path PestDetector.mapping_path
    = Raise (LibraryError "file signature not found").
Proof.
  split; [|split; reflexivity].
  intros p msg _. split; discriminate.
Qed.

(** C9, amended.  With loaders that do not report an existing path as not
    found, construction raises a not-found error exactly when the model
    file is missing, or the model file is there and loads and the class
    mapping is missing.  Whatever construction raises, start-up reports
    it as an initialization error and leaves the detector (and the
    recommender) unset. *)
Theorem init_not_found (env : Env) :
  loaders_find_existing env →
  ((∃ msg,
      PestDetector.__init__ env PestDetector.model_path PestDetector.mapping_path
      = Raise (FileNotFoundError msg))
   ↔ path_exists env PestDetector.model_path = false
     ∨ ((∃ model, load_model env PestDetector.model_path = Ok model)
        ∧ path_exists env PestDetector.mapping_path = false))
  ∧ (∀ e,
       PestDetector.__init__ env PestDetector.model_path PestDetector.mapping_path
       = Raise e →
       PestDetectionApp.initialize_components env
       = ({| PestDetectionApp.detector := None; PestDetectionApp.recommender := None |},
          [PestDetectionApp.st_error ("Error initializing components: " +:+ exn_str e)],
          false)).
Proof.
  intros Hlib. split.
  - unfold PestDetector.__init__.
    destruct (path_exists env PestDetector.model_path) eqn:Hm; simpl.
    + destruct (load_model env PestDetector.model_path) as [model|e] eqn:Hl; simpl.
      * destruct (path_exists env PestDetector.mapping_path) eqn:Hc; simpl.
        -- destruct (json_load env PestDetector.mapping_path) as [cm|e] eqn:Hj; simpl.
           ++ split; [intros [msg H]; discriminate|].
              intros [H|[_ H]]; discriminate.
           ++ split.
              ** intros [msg H]. injection H as ->.
                 destruct (Hlib _ msg Hc) as [_ Hno]. contradiction.
              ** intros [H|[_ H]]; discriminate.
        -- split; [|eauto]. intros _. right. eauto.
      * split.
        -- intros [msg H]. injection H as ->.
           destruct (Hlib _ msg Hm) as [Hno _]. contradiction.
        -- intros [H|[[model H] _]]; discriminate.
    + split; [auto | eauto].
  - intros e He. unfold PestDetectionApp.initialize_components. rewrite He. reflexivity.
Qed.

Lemma init_not_found_witness :
  PestDetectionApp.initialize_components blank_env
  = ({| PestDetectionApp.detector := None; PestDetectionApp.recommender := None |},
     [PestDetectionApp.st_error
        "Error initializing components: Model not found at models/pest_detection_model.h5"],
     false).
Proof.
  assert (Hlib : loaders_find_existing blank_env).
  { intros p msg H. discriminate H. }
  apply (proj2 (init_not_found blank_env Hlib)
           (FileNotFoundError "Model not found at models/pest_detection_model.h5")).
  reflexivity.
Defined.

(** ** The detection page *)

(** The detector the application holds, when it holds one, is an instance
    of the class of pest_detector.py. *)
Lemma initialize_components_detector (env : Env) (d : PestDetectionApp.detector_object) :
  PestDetectionApp.detector (PestDetectionApp.initialize_components env).1.1 = Some d →
  ∃ self, d = PestDetectionApp.PestDetector_object self.
Proof.
  unfold PestDetectionApp.initialize_components.
  destruct (PestDetector.__init__ _ _ _) as [self|e]; [|discriminate].
  destruct (PesticideRecommender.__init__ env); simpl; intros H; injection H as <-; eauto.
Qed.

(** C3, for every image.  The claim is that detection yields a primary
    pest, its confidence and a ranked top-3 list.  [process_image] asks the
    detector for [detect_pest]; the class of pest_detector.py has no such
    method (its one inference method, [predict_pest], returns a pair and no
    list), so with any detector that start-up has set, and for every
    image, the page stops with an [AttributeError] before anything is
    shown. *)
Theorem process_image_finds_no_detect_pest (env : Env)
    (d : PestDetectionApp.detector_object) (recommender : PesticideRecommender.t)
    (image : Image) :
  PestDetectionApp.detector (PestDetectionApp.initialize_components env).1.1 = Some d →
  PestDetectionApp.process_image env d recommender image
  = ([], Raise (AttributeError "'PestDetector' object has no attribute 'detect_pest'")).
Proof.
  intros [self ->]%initialize_components_detector. reflexivity.
Qed.

Lemma process_image_finds_no_detect_pest_witness :
  PestDetectionApp.process_image trained_env
    (PestDetectionApp.PestDetector_object trained_detector)
    {| PesticideRecommender.pesticide_db := Some PesticideRecommender.default_database |}
    [0%Z; 128%Z; 255%Z]
  = ([], Raise (AttributeError "'PestDetector' object has no attribute 'detect_pest'")).
Proof.
  apply (process_image_finds_no_detect_pest trained_env). reflexivity.
Defined.

(** C4, for every image.  The wrapper half of the claim holds:
    [predict_pest] takes no threshold and returns the class of the
    arg-max index with the largest probability, however small.  The
    caller half does not: [process_image] compares nothing with 0.3, it
    hands 0.3 to the detector's [detect_pest], which the class of
    pest_detector.py does not define.  So with any detector that start-up
    has set, and whatever the confidence the wrapper returns, the page
    ends in [AttributeError] and shows neither the pest card nor the
    no-pest card. *)
Theorem threshold_decision_never_made (env : Env)
    (d : PestDetectionApp.detector_object) (recommender : PesticideRecommender.t)
    (image : Image) (img_path : string) (x : Tensor) (predictions : list Q) :
  PestDetectionApp.detector (PestDetectionApp.initialize_components env).1.1 = Some d →
  PestDetector.preprocess_image env img_path = Ok x →
  PestDetector.model (PestDetectionApp.instance d) x = Ok predictions →
  predictions ≠ [] →
  ∃ class_idx confidence,
    predictions !! class_idx = Some confidence
    ∧ (∀ j p, predictions !! j = Some p → (p <= confidence)%Q)
    ∧ (∀ j p, j < class_idx → predictions !! j = Some p → (p < confidence)%Q)
    ∧ PestDetector.predict_pest env (PestDetectionApp.instance d) img_path
      = Ok (default "Unknown"
              (PestDetector.idx_to_class (PestDetectionApp.instance d)
                 !! Z.of_nat class_idx),
            confidence)
    ∧ PestDetectionApp.process_image env d recommender image
      = ([], Raise (AttributeError "'PestDetector' object has no attribute 'detect_pest'")).
Proof.
  intros Hd Hx Hp Hne.
  destruct (argmax_spec predictions Hne) as (i & c & Ha & Hc & Hmax & Hfirst).
  exists i, c. split; [exact Hc|]. split; [exact Hmax|]. split; [exact Hfirst|]. split.
  - apply (predict_pest_decoded env _ img_path x predictions i c Hx Hp Ha Hc).
  - apply initialize_components_detector in Hd as [self ->]. reflexivity.
Qed.

Lemma threshold_decision_never_made_witness :
  ∃ confidence,
    PestDetector.predict_pest trained_env trained_detector "leaf.jpg"
    = Ok ("mite", confidence)
    ∧ (3 # 10 <= confidence)%Q
    ∧ PestDetectionApp.process_image trained_env
        (PestDetectionApp.PestDetector_object trained_detector)
        {| PesticideRecommender.pesticide_db := Some PesticideRecommender.default_database |}
        [0%Z; 128%Z; 255%Z]
      = ([], Raise (AttributeError "'PestDetector' object has no attribute 'detect_pest'")).
Proof.
  destruct (threshold_decision_never_made trained_env
              (PestDetectionApp.PestDetector_object trained_detector)
              {| PesticideRecommender.pesticide_db :=
                   Some PesticideRecommender.default_database |}
              [0%Z; 128%Z; 255%Z] "leaf.jpg"
              [(0 / 255)%Q; (128 / 255)%Q; (255 / 255)%Q]
              [(1 # 10); (7 # 10); (2 # 10)]%Q eq_refl eq_refl eq_refl)
    as (class_idx & confidence & Hc & Hmax & _ & Hres & Hpage).
  - discriminate.
  - exists confidence. split; [|split; [|exact Hpage]].
    + unfold PestDetectionApp.PestDetector_object, PestDetectionApp.instance in Hres.
      rewrite Hres. f_equal. f_equal.
      destruct class_idx as [|[|[|k]]]; try discriminate Hc; injection Hc as <-.
      * exfalso. assert (H := Hmax 1 (7 # 10)%Q eq_refl). revert H. apply Qlt_not_le.
        reflexivity.
      * reflexivity.
      * exfalso. assert (H := Hmax 1 (7 # 10)%Q eq_refl). revert H. apply Qlt_not_le.
        reflexivity.
    + eapply Qle_trans; [|exact (Hmax 1 (7 # 10)%Q eq_refl)]. discriminate.
Defined.

(** ** The class table *)

Lemma dict_mem_false (d : list (string * nat)) (k : string) :
  Dict.mem d k = false → k ∉ Dict.keys d.
Proof.
  unfold Dict.mem. induction d as [|[k' v] d IH]; simpl; intros H Hin; [inversion Hin|].
  destruct (decide (k = k')); [discriminate|].
  apply elem_of_cons in Hin as [Heq|Hin]; [contradiction | exact (IH H Hin)].
Qed.

Lemma dict_set_fresh (d : list (string * nat)) (k : string) (v : nat) :
  Dict.mem d k = false → Dict.set d k v = d ++ [(k, v)].
Proof.
  unfold Dict.mem. induction d as [|[k' v'] d IH]; simpl; intros H; [reflexivity|].
  destruct (decide (k = k')); [discriminate|]. rewrite IH by exact H. reflexivity.
Qed.

Lemma dict_get_item (d : list (string * nat)) (k : string) (v : nat) :
  NoDup (Dict.keys d) → (k, v) ∈ d → Dict.get d k = Some v.
Proof.
  induction d as [|[k' v'] d IH]; simpl; intros Hnd Hin; [inversion Hin|].
  apply NoDup_cons in Hnd as [Hk Hnd].
  apply elem_of_cons in Hin as [Heq|Hin].
  - injection Heq as -> ->. rewrite decide_True by reflexivity. reflexivity.
  - destruct (decide (k = k')) as [->|Hne]; [|auto].
    exfalso. apply Hk. apply list_elem_of_fmap. exists (k', v). auto.
Qed.

Lemma dict_get_elem (d : list (string * nat)) (k : string) (v : nat) :
  Dict.get d k = Some v → (k, v) ∈ d.
Proof.
  induction d as [|[k' v'] d IH]; simpl; intros H; [discriminate|].
  destruct (decide (k = k')) as [->|Hne].
  - injection H as ->. apply list_elem_of_here.
  - apply list_elem_of_further, IH, H.
Qed.

Lemma dense_empty : dense [].
Proof. split; [apply NoDup_nil_2 | reflexivity]. Qed.

Lemma dense_set (pc : list (string * nat)) (k : string) :
  dense pc → Dict.mem pc k = false → dense (Dict.set pc k (length pc)).
Proof.
  intros [Hnd Hval] Hk. rewrite dict_set_fresh by exact Hk.
  unfold dense, Dict.keys, Dict.values in *. rewrite !map_app, length_app. simpl.
  split.
  - apply NoDup_app. split; [exact Hnd|]. split; [|apply NoDup_singleton].
    intros x Hx Hx'. apply list_elem_of_singleton in Hx' as ->.
    exact (dict_mem_false pc k Hk Hx).
  - rewrite Hval. rewrite Nat.add_1_r, seq_S. reflexivity.
Qed.

Lemma copy_image_with_class_dense (self : DataPreprocessor.t) (src_path pest_class : string) :
  dense (DataPreprocessor.pest_classes self) →
  dense (DataPreprocessor.pest_classes
           (DataPreprocessor.copy_image_with_class self src_path pest_class)).
Proof.
  intros Hd. unfold DataPreprocessor.copy_image_with_class. simpl.
  destruct (Dict.mem (DataPreprocessor.pest_classes self) pest_class) eqn:Hm; simpl.
  - exact Hd.
  - apply dense_set; assumption.
Qed.

Lemma process_files_dense (root : string) (files : list string) (self : DataPreprocessor.t) :
  dense (DataPreprocessor.pest_classes self) →
  dense (DataPreprocessor.pest_classes (DataPreprocessor.process_files self root files)).
Proof.
  revert self. induction files as [|file files IH]; intros self Hd; simpl; [exact Hd|].
  apply IH.
  match goal with |- context [if ?b then _ else _] => destruct b end; [|exact Hd].
  destruct (DataPreprocessor.extract_pest_class root); [|exact Hd].
  apply copy_image_with_class_dense, Hd.
Qed.

Lemma process_pest_data_dense (env : Env) (path : string) (self : DataPreprocessor.t) :
  dense (DataPreprocessor.pest_classes self) →
  dense (DataPreprocessor.pest_classes (DataPreprocessor.process_pest_data env self path)).
Proof.
  unfold DataPreprocessor.process_pest_data.
  destruct (path_exists env path); [|auto].
  generalize (walk env path). intros dirs. revert self.
  induction dirs as [|[root files] dirs IH]; intros self Hd; simpl; [exact Hd|].
  apply IH, process_files_dense, Hd.
Qed.

(** In a dense table the indices are exactly 0 .. k-1, one per class. *)
Lemma dense_indices (pc : list (string * nat)) :
  dense pc →
  (∀ i, i < length pc ↔ ∃ name, Dict.get pc name = Some i)
  ∧ (∀ a b i, Dict.get pc a = Some i → Dict.get pc b = Some i → a = b).
Proof.
  intros [Hnd Hval].
  assert (Hpos : ∀ p name i, pc !! p = Some (name, i) → i = p).
  { intros p name i Hp.
    assert (H : Dict.values pc !! p = Some i).
    { unfold Dict.values. rewrite list_lookup_fmap, Hp. reflexivity. }
    rewrite Hval in H. apply lookup_seq in H as [-> _]. reflexivity. }
  split.
  - intros i. split.
    + intros Hi. destruct (lookup_lt_is_Some_2 pc i Hi) as [[name v] Hp].
      exists name. apply dict_get_item; [exact Hnd|].
      assert (v = i) as <- by (eapply Hpos; exact Hp).
      apply list_elem_of_lookup. eauto.
    + intros [name Hg]. apply dict_get_elem, list_elem_of_lookup in Hg as [p Hp].
      rewrite (Hpos p name i Hp). apply lookup_lt_Some in Hp. exact Hp.
  - intros a b i Ha Hb.
    apply dict_get_elem, list_elem_of_lookup in Ha as [p Hp].
    apply dict_get_elem, list_elem_of_lookup in Hb as [p' Hp'].
    pose proof (Hpos p a i Hp). pose proof (Hpos p' b i Hp'). subst p p'.
    rewrite Hp in Hp'. congruence.
Qed.

Lemma dict_mem_true (d : list (string * nat)) (k : string) :
  Dict.mem d k = true → k ∈ Dict.keys d.
Proof.
  unfold Dict.mem. induction d as [|[k' v] d IH]; simpl; [discriminate|].
  destruct (decide (k = k')) as [->|Hne]; intros H.
  - apply list_elem_of_here.
  - apply list_elem_of_further, IH, H.
Qed.

Lemma copy_image_with_class_keys (self : DataPreprocessor.t) (src_path pest_class c : string) :
  c ∈ Dict.keys (DataPreprocessor.pest_classes
                   (DataPreprocessor.copy_image_with_class self src_path pest_class))
  ↔ c = pest_class ∨ c ∈ Dict.keys (DataPreprocessor.pest_classes self).
Proof.
  unfold DataPreprocessor.copy_image_with_class. simpl.
  destruct (Dict.mem (DataPreprocessor.pest_classes self) pest_class) eqn:Hm; simpl.
  - split; [auto|]. intros [->|H]; [apply dict_mem_true, Hm | exact H].
  - rewrite dict_set_fresh by exact Hm. unfold Dict.keys. rewrite map_app. simpl.
    rewrite elem_of_app, list_elem_of_singleton. tauto.
Qed.

Lemma copy_all_dense (calls : list (string * string)) (self : DataPreprocessor.t) :
  dense (DataPreprocessor.pest_classes self) →
  dense (DataPreprocessor.pest_classes (copy_all self calls)).
Proof.
  revert self. induction calls as [|[src c] calls IH]; intros self Hd; [exact Hd|].
  apply IH, copy_image_with_class_dense, Hd.
Qed.

Lemma copy_all_keys (calls : list (string * string)) (self : DataPreprocessor.t) (c : string) :
  c ∈ Dict.keys (DataPreprocessor.pest_classes (copy_all self calls))
  ↔ c ∈ Dict.keys (DataPreprocessor.pest_classes self) ∨ c ∈ map snd calls.
Proof.
  revert self. induction calls as [|[src c'] calls IH]; intros self.
  - simpl. split; [auto|]. intros [H|H]; [exact H | inversion H].
  - change (copy_all self ((src, c') :: calls))
      with (copy_all (DataPreprocessor.copy_image_with_class self src c') calls).
    rewrite IH, copy_image_with_class_keys. simpl. rewrite elem_of_cons. tauto.
Qed.

(** C8.  Every call of [copy_image_with_class] keeps the class table
    dense.  Hence after any run of calls from the empty table the keys are
    the classes seen, the indices are exactly 0 .. k-1 for the k classes,
    and no two classes share an index; the same holds for the table that
    preprocessing builds and [save_class_mapping] dumps. *)
Theorem class_mapping_dense :
  (∀ (self : DataPreprocessor.t) (src_path pest_class : string),
     dense (DataPreprocessor.pest_classes self) →
     dense (DataPreprocessor.pest_classes
              (DataPreprocessor.copy_image_with_class self src_path pest_class)))
  ∧ (∀ calls : list (string * string),
       let pc := DataPreprocessor.pest_classes (copy_all DataPreprocessor.__init__ calls) in
       dense pc
       ∧ (∀ c, c ∈ Dict.keys pc ↔ c ∈ map snd calls)
       ∧ (∀ i, i < length pc ↔ ∃ name, Dict.get pc name = Some i)
       ∧ (∀ a b i, Dict.get pc a = Some i → Dict.get pc b = Some i → a = b))
  ∧ (∀ env : Env,
       let self := DataPreprocessor.create_unified_dataset env in
       dense (DataPreprocessor.pest_classes self)
       ∧ Dict.values (DataPreprocessor.save_class_mapping self)
         = map Z.of_nat (seq 0 (length (DataPreprocessor.pest_classes self)))).
Proof.
  split; [|split].
  - apply copy_image_with_class_dense.
  - intros calls pc.
    assert (Hd : dense pc) by (apply copy_all_dense, dense_empty).
    split; [exact Hd|]. split; [|apply dense_indices, Hd].
    intros c. unfold pc. rewrite copy_all_keys. simpl. split; [|auto].
    intros [H|H]; [inversion H | exact H].
  - intros env self.
    assert (Hd : dense (DataPreprocessor.pest_classes self)).
    { unfold self, DataPreprocessor.create_unified_dataset.
      do 2 apply process_pest_data_dense. apply dense_empty. }
    split; [exact Hd|]. destruct Hd as [_ Hval].
    unfold DataPreprocessor.save_class_mapping, Dict.values in *.
    rewrite map_map. simpl. rewrite <- Hval, map_map. reflexivity.
Qed.

Lemma class_mapping_dense_witness :
  DataPreprocessor.pest_classes
    (copy_all DataPreprocessor.__init__
       [("data/crop_pest/Aphids/1.jpg", "aphid");
        ("data/crop_pest/Mites/7.jpg", "mite");
        ("data/crop_pest/Aphids/2.jpg", "aphid");
        ("data/ag_pests/ants/3.png", "ants")])
  = [("aphid", 0); ("mite", 1); ("ants", 2)]
  ∧ dense [("aphid", 0); ("mite", 1); ("ants", 2)].
Proof.
  split; [reflexivity|].
  exact (proj1 (proj1 (proj2 class_mapping_dense)
                  [("data/crop_pest/Aphids/1.jpg", "aphid");
                   ("data/crop_pest/Mites/7.jpg", "mite");
                   ("data/crop_pest/Aphids/2.jpg", "aphid");
                   ("data/ag_pests/ants/3.png", "ants")])).
Defined.

(** * Further properties *)

(** ** Finding the columns *)

Lemma find_columns_from (cols : list string) (pest_col pesticide_col : option string) :
  PesticideRecommender.find_columns cols pest_col pesticide_col
  = (match last (List.filter is_pest_col cols) with
     | Some c => Some c
     | None => pest_col
     end,
     match last (List.filter is_pesticide_col cols) with
     | Some c => Some c
     | None => pesticide_col
     end).
Proof.
  revert pest_col pesticide_col.
  induction cols as [|col cols IH]; intros pest_col pesticide_col; [reflexivity|].
  cbn [PesticideRecommender.find_columns List.filter]. rewrite IH.
  fold (is_pest_col col). fold (is_pesticide_col col).
  destruct (is_pest_col col), (is_pesticide_col col);
    rewrite ?last_cons;
    destruct (last (List.filter is_pest_col cols)),
             (last (List.filter is_pesticide_col cols)); reflexivity.
Qed.

(** X1.  The pest-name column is the last column whose lower-cased name is
    "pest name" or "pest_name", and the pesticide column the last one
    whose lower-cased name is "most commonly used pesticides" or
    "pesticide_name"; each is missing exactly when no column qualifies. *)
Theorem find_columns_last_match (cols : list string) :
  PesticideRecommender.find_columns cols None None
  = (last (List.filter is_pest_col cols), last (List.filter is_pesticide_col cols)).
Proof.
  rewrite find_columns_from.
  destruct (last (List.filter is_pest_col cols)),
           (last (List.filter is_pesticide_col cols)); reflexivity.
Qed.

Lemma last_filter_none (f : string → bool) (cols : list string) :
  (∀ c, c ∈ cols → f c = false) → last (List.filter f cols) = None.
Proof.
  intros H. rewrite (filter_none f cols); [reflexivity|].
  intros c Hc. apply H, list_elem_of_In, Hc.
Qed.

(** X2.  On a table without a pest-name column, or without a pesticide
    column, every query gets the empty list and no exception, also a
    query that would not compile as a pattern: the columns are looked
    for before the query is used. *)
Theorem missing_column_gives_empty_list extern (db : DataFrame) (q : string) :
  (∀ c, c ∈ columns db → is_pest_col c = false)
  ∨ (∀ c, c ∈ columns db → is_pesticide_col c = false) →
  PesticideRecommender.get_recommendations extern (Some db) q = Ok [].
Proof.
  intros H. unfold PesticideRecommender.get_recommendations.
  rewrite find_columns_from. destruct H as [H|H]; rewrite (last_filter_none _ _ H).
  - reflexivity.
  - destruct (last (List.filter is_pest_col (columns db))); reflexivity.
Qed.

Lemma missing_column_gives_empty_list_witness :
  PesticideRecommender.get_recommendations (re_extern blank_env)
    (Some {| columns := ["pest"; "pesticide_name"]; rows := [[CStr "aphid"; CStr "Neem"]] |})
    "(aphid"
  = Ok [].
Proof.
  apply missing_column_gives_empty_list. left.
  intros c Hc. repeat (apply elem_of_cons in Hc as [->|Hc]; [reflexivity|]). inversion Hc.
Defined.

(** ** What [get_recommendations] can raise *)



(** ** Where the records come from *)

Lemma mask_rows_sublist (rs : list (list cell)) (mask : list bool) :
  Pd.mask_rows rs mask `sublist_of` rs.
Proof.
  revert mask. induction rs as [|r rs IH]; intros mask; simpl.
  - destruct mask; constructor.
  - destruct mask as [|b mask]; [apply sublist_nil_l|].
    destruct b; [apply sublist_skip | apply sublist_cons]; apply IH.
Qed.

Lemma sublist_map {A B : Type} (f : A → B) (l1 l2 : list A) :
  l1 `sublist_of` l2 → map f l1 `sublist_of` map f l2.
Proof. induction 1; simpl; constructor; assumption. Qed.

Lemma partial_loop_rows (db : DataFrame) (pest_col q : string)
    (pests : list cell) (m : DataFrame) :
  rows m `sublist_of` rows db →
  rows (PesticideRecommender.partial_loop db pest_col q pests m) `sublist_of` rows db.
Proof.
  intros Hm. induction pests as [|pest pests IH]; simpl; [exact Hm|].
  destruct (PesticideRecommender.partial_match q pest); [|exact IH].
  apply mask_rows_sublist.
Qed.

Lemma filter_sublist {A : Type} (f : A → bool) (l : list A) :
  List.filter f l `sublist_of` l.
Proof.
  induction l as [|x l IH]; simpl; [constructor|].
  destruct (f x); [apply sublist_skip | apply sublist_cons]; exact IH.
Qed.

Lemma direct_match_sublist extern (db : DataFrame) (pest_col q : string) (m : DataFrame) :
  PesticideRecommender.direct_match extern db pest_col q = Ok m →
  rows m `sublist_of` rows db.
Proof.
  destruct (direct_match_cases extern db pest_col q)
    as [[_ Hd]|[[_ [e [_ Hd]]]|[_ [found [_ Hd]]]]]; rewrite Hd; intros H;
    [discriminate | discriminate |].
  injection H as <-. apply filter_sublist.
Qed.

Lemma get_recommendations_rows extern (db : DataFrame) (q pest_col pesticide_col : string)
    (recs : list (list (string * cell))) :
  PesticideRecommender.find_columns (columns db) None None
  = (Some pest_col, Some pesticide_col) →
  PesticideRecommender.get_recommendations extern (Some db) q = Ok recs →
  ∃ m, columns m = columns db
       ∧ rows m `sublist_of` rows db
       ∧ recs = records pest_col pesticide_col m.
Proof.
  intros Hcols. unfold PesticideRecommender.get_recommendations. rewrite Hcols.
  destruct (PesticideRecommender.direct_match _ _ _ _) as [m|e] eqn:Hm; simpl;
    intros H; [|discriminate].
  injection H as <-.
  assert (Hc : columns m = columns db) by (eapply direct_match_columns, Hm).
  assert (Hr : rows m `sublist_of` rows db) by (eapply direct_match_sublist, Hm).
  eexists. split; [|split; [|reflexivity]].
  - destruct (Pd.empty m); [apply partial_loop_columns|]; exact Hc.
  - destruct (Pd.empty m); [apply partial_loop_rows|]; exact Hr.
Qed.

(** X4.  Every list [get_recommendations] returns is drawn from the
    table: its records are the records of some of the rows, each row at
    most once and in table order, so there are never more records than
    rows. *)
Theorem recommendations_drawn_from_table extern (db : DataFrame)
    (q pest_col pesticide_col : string) (recs : list (list (string * cell))) :
  PesticideRecommender.find_columns (columns db) None None
  = (Some pest_col, Some pesticide_col) →
  PesticideRecommender.get_recommendations extern (Some db) q = Ok recs →
  recs `sublist_of` records pest_col pesticide_col db
  ∧ length recs ≤ length (rows db).
Proof.
  intros Hcols Hrec.
  destruct (get_recommendations_rows _ _ _ _ _ _ Hcols Hrec) as (m & Hc & Hr & ->).
  assert (Hsub : records pest_col pesticide_col m
                 `sublist_of` records pest_col pesticide_col db).
  { unfold records, Pd.iterrows. rewrite Hc. do 2 apply sublist_map. exact Hr. }
  split; [exact Hsub|].
  apply sublist_length in Hsub. unfold records at 2 in Hsub. unfold Pd.iterrows in Hsub.
  rewrite !length_map in Hsub. exact Hsub.
Qed.

Lemma recommendations_drawn_from_table_witness :
  ∃ recs,
    PesticideRecommender.get_recommendations (re_extern blank_env)
      (Some pestopia_table) "APHID " = Ok recs
    ∧ recs `sublist_of` records "Pest Name" "Most Commonly Used Pesticides" pestopia_table
    ∧ length recs ≤ 4.
Proof.
  eexists. split; [reflexivity|].
  apply (recommendations_drawn_from_table (re_extern blank_env) pestopia_table "APHID ");
    reflexivity.
Defined.

(** X5.  A query without pattern metacharacters that occurs in some pest
    name is answered on the direct path by exactly the rows whose pest
    name contains the cleaned query, case-insensitively, in table order. *)
Theorem plain_query_returns_containing_rows extern (db : DataFrame)
    (q pest_col pesticide_col : string) :
  PesticideRecommender.find_columns (columns db) None None
  = (Some pest_col, Some pesticide_col) →
  Re.plain (clean q) = true →
  rows (rows_where db (name_contains db pest_col (clean q))) ≠ [] →
  PesticideRecommender.get_recommendations extern (Some db) q
  = Ok (records pest_col pesticide_col
          (rows_where db (name_contains db pest_col (clean q)))).
Proof.
  intros Hcols Hp Hne.
  apply (get_recommendations_direct extern db q pest_col pesticide_col Hcols).
  - apply direct_match_plain; [|exact Hp].
    apply (selected_row_accepts db pest_col _ (name_contains_has_name db pest_col _) Hne).
  - unfold Pd.empty. destruct (rows _); [contradiction | reflexivity].
Qed.

Lemma plain_query_returns_containing_rows_witness :
  PesticideRecommender.get_recommendations (re_extern blank_env)
    (Some pestopia_table) " Borer"
  = Ok [[("pest_name", CStr "Stem Borer"); ("pesticide", CStr "Cartap")]].
Proof.
  refine (plain_query_returns_containing_rows (re_extern blank_env) pestopia_table
            " Borer" "Pest Name" "Most Commonly Used Pesticides" eq_refl eq_refl _).
  discriminate.
Defined.

(** ** Loading the table *)

Lemma create_default_database_outcome (env : Env) :
  PesticideRecommender.create_default_database env
  = match to_csv env "data/default_pesticide_db.csv" PesticideRecommender.default_database with
    | Ok _ => Ok {| PesticideRecommender.pesticide_db :=
                      Some PesticideRecommender.default_database |}
    | Raise e => Raise e
    end.
Proof.
  unfold PesticideRecommender.create_default_database.
  rewrite default_database_built. cbn [result_bind].
  destruct (to_csv env _ _); reflexivity.
Qed.

Lemma csv_files_none (w : list (string * list string)) :
  (∀ root files file, (root, files) ∈ w → file ∈ files →
     Str.endswith file ".csv" = false) →
  flat_map
    (fun rf => map (fun file => fst rf +:+ "/" +:+ file)
                 (List.filter (fun file => Str.endswith file ".csv") (snd rf))) w
  = [].
Proof.
  intros H. induction w as [|[root files] w IH]; [reflexivity|].
  cbn [flat_map fst snd]. rewrite filter_none.
  - apply IH. intros r fs f Hin. apply (H r fs f). right. exact Hin.
  - intros f Hf. apply (H root files f); [left | apply list_elem_of_In, Hf].
Qed.

Lemma csv_files_first (before after : list (string * list string))
    (root file : string) (skipped rest : list string) :
  (∀ r fs f, (r, fs) ∈ before → f ∈ fs → Str.endswith f ".csv" = false) →
  (∀ f, f ∈ skipped → Str.endswith f ".csv" = false) →
  Str.endswith file ".csv" = true →
  ∃ others,
    flat_map
      (fun rf => map (fun file => fst rf +:+ "/" +:+ file)
                   (List.filter (fun file => Str.endswith file ".csv") (snd rf)))
      (before ++ (root, skipped ++ file :: rest) :: after)
    = (root +:+ "/" +:+ file) :: others.
Proof.
  intros Hbefore Hskipped Hfile.
  rewrite flat_map_app, (csv_files_none before Hbefore).
  cbn [flat_map fst snd app]. rewrite List.filter_app, filter_none.
  - cbn [List.filter app]. rewrite Hfile. cbn [map app]. eauto.
  - intros f Hf. apply Hskipped, list_elem_of_In, Hf.
Qed.

(** X6.  A recommender that has been constructed always has a table, and
    construction raises only what writing the default table to
    data/default_pesticide_db.csv raises.  The table is the frame read
    from the first file, in the order of [os.walk], whose name ends in
    .csv under data/pestopia.  The default table is written and used in
    its place when data/pestopia does not exist, when no file under it
    ends in .csv, and when reading that first file fails; a later CSV
    file is never tried. *)
Theorem recommender_always_has_table (env : Env) :
  let default :=
    match to_csv env "data/default_pesticide_db.csv" PesticideRecommender.default_database with
    | Ok _ => Ok {| PesticideRecommender.pesticide_db :=
                      Some PesticideRecommender.default_database |}
    | Raise e => Raise e
    end in
  match PesticideRecommender.__init__ env with
  | Ok self => ∃ db, PesticideRecommender.pesticide_db self = Some db
  | Raise e =>
      to_csv env "data/default_pesticide_db.csv" PesticideRecommender.default_database
      = Raise e
  end
  ∧ (path_exists env "data/pestopia" = false
     ∨ (∀ root files file, (root, files) ∈ walk env "data/pestopia" → file ∈ files →
          Str.endswith file ".csv" = false) →
     PesticideRecommender.__init__ env = default)
  ∧ (∀ before root skipped file rest after,
       path_exists env "data/pestopia" = true →
       walk env "data/pestopia" = before ++ (root, skipped ++ file :: rest) :: after →
       (∀ r fs f, (r, fs) ∈ before → f ∈ fs → Str.endswith f ".csv" = false) →
       (∀ f, f ∈ skipped → Str.endswith f ".csv" = false) →
       Str.endswith file ".csv" = true →
       PesticideRecommender.__init__ env
       = match read_csv env (root +:+ "/" +:+ file) with
         | Ok db => Ok {| PesticideRecommender.pesticide_db := Some db |}
         | Raise _ => default
         end).
Proof.
  cbv zeta. rewrite <- create_default_database_outcome.
  unfold PesticideRecommender.__init__, PesticideRecommender.load_pesticide_database.
  split; [|split].
  - assert (Hdefault :
      match PesticideRecommender.create_default_database env with
      | Ok self => ∃ db, PesticideRecommender.pesticide_db self = Some db
      | Raise e =>
          to_csv env "data/default_pesticide_db.csv" PesticideRecommender.default_database
          = Raise e
      end).
    { rewrite create_default_database_outcome.
      destruct (to_csv env _ _); [|reflexivity]. eexists. reflexivity. }
    destruct (path_exists env "data/pestopia"); [|exact Hdefault].
    destruct (flat_map _ (walk env "data/pestopia")) as [|first others];
      [exact Hdefault|].
    destruct (read_csv env first) as [db|e]; [|exact Hdefault].
    exists db. reflexivity.
  - intros [Hp|Hnone].
    + rewrite Hp. reflexivity.
    + rewrite (csv_files_none _ Hnone).
      destruct (path_exists env "data/pestopia"); reflexivity.
  - intros before root skipped file rest after Hp Hwalk Hbefore Hskipped Hfile.
    rewrite Hp, Hwalk.
    destruct (csv_files_first before after root file skipped rest Hbefore Hskipped Hfile)
      as [others ->].
    reflexivity.
Qed.

Lemma recommender_always_has_table_witness :
  PesticideRecommender.__init__ pestopia_env
  = Ok {| PesticideRecommender.pesticide_db := Some pestopia_table |}
  ∧ PesticideRecommender.__init__ blank_env
    = Ok {| PesticideRecommender.pesticide_db := Some PesticideRecommender.default_database |}.
Proof.
  split.
  - refine (proj2 (proj2 (recommender_always_has_table pestopia_env))
              [("data/pestopia", ["README.md"])] "data/pestopia/tables"
              ["notes.txt"] "pests.csv" ["older.csv"] [("data/pestopia/images", ["a.csv"])]
              eq_refl eq_refl _ _ eq_refl).
    + intros r fs f Hr Hf. apply elem_of_cons in Hr as [Hr|Hr]; [|inversion Hr].
      injection Hr as -> ->.
      apply elem_of_cons in Hf as [->|Hf]; [reflexivity | inversion Hf].
    + intros f Hf. apply elem_of_cons in Hf as [->|Hf]; [reflexivity | inversion Hf].
  - apply (proj1 (proj2 (recommender_always_has_table blank_env))).
    left. reflexivity.
Defined.

(** ** The list of pests *)

Lemma unique_from_elem (col seen : list cell) (c : cell) :
  c ∈ Pd.unique_from seen col ↔ c ∈ col ∧ c ∉ seen.
Proof.
  revert seen. induction col as [|x col IH]; intros seen; simpl.
  - split; [intros H; inversion H | intros [H _]; inversion H].
  - case_bool_decide as Hx.
    + rewrite IH, elem_of_cons. split; [tauto|].
      intros [[->|H] Hs]; [contradiction | auto].
    + rewrite elem_of_cons, IH, !elem_of_cons. split.
      * intros [->|[H Hs]]; [auto | tauto].
      * intros [[->|H] Hs]; [auto|].
        destruct (decide (c = x)) as [->|Hne]; [auto | right; tauto].
Qed.

Lemma unique_from_NoDup (col seen : list cell) : NoDup (Pd.unique_from seen col).
Proof.
  revert seen. induction col as [|x col IH]; intros seen; simpl; [constructor|].
  case_bool_decide; [apply IH|]. constructor; [|apply IH].
  rewrite unique_from_elem, elem_of_cons. tauto.
Qed.

Lemma unique_from_sublist (col seen : list cell) : Pd.unique_from seen col `sublist_of` col.
Proof.
  revert seen. induction col as [|x col IH]; intros seen; simpl; [constructor|].
  case_bool_decide; [apply sublist_cons | apply sublist_skip]; apply IH.
Qed.

(** In the list of distinct values, a value that comes before another
    has its first occurrence in the column before every occurrence of the
    other. *)
Lemma unique_from_order (col seen : list cell) (i j : nat) (a b : cell) :
  Pd.unique_from seen col !! i = Some a →
  Pd.unique_from seen col !! j = Some b →
  i < j →
  ∃ k, col !! k = Some a
       ∧ (∀ k', k' < k → col !! k' ≠ Some a)
       ∧ (∀ k', k' ≤ k → col !! k' ≠ Some b).
Proof.
  revert seen i j. induction col as [|x col IH]; intros seen i j; simpl; [discriminate|].
  case_bool_decide as Hx.
  - intros Hi Hj Hlt. destruct (IH seen i j Hi Hj Hlt) as (k & Hk & Ha & Hb).
    assert (Hnot : ∀ c n, Pd.unique_from seen col !! n = Some c → x ≠ c).
    { intros c n Hn ->. apply list_elem_of_lookup_2, unique_from_elem in Hn. tauto. }
    exists (S k). split; [exact Hk|]. split.
    + intros [|k'] Hk'; simpl; [intros [= E]; exact (Hnot a i Hi E) | apply Ha; lia].
    + intros [|k'] Hk'; simpl; [intros [= E]; exact (Hnot b j Hj E) | apply Hb; lia].
  - destruct j as [|j]; [lia|]. cbn [lookup list_lookup]. intros Hi Hj Hlt.
    assert (Hb : x ≠ b).
    { intros ->. change ((b :: Pd.unique_from (b :: seen) col) !! S j = Some b) in Hj.
      cbn in Hj. apply list_elem_of_lookup_2, unique_from_elem in Hj.
      destruct Hj as [_ Hj]. apply Hj. left. }
    destruct i as [|i].
    + injection Hi as <-. exists 0. split; [reflexivity|]. split.
      * intros k' Hk'. lia.
      * intros k' Hk'. assert (k' = 0) as -> by lia. simpl. congruence.
    + change (Pd.unique_from (x :: seen) col !! i = Some a) in Hi.
      change (Pd.unique_from (x :: seen) col !! j = Some b) in Hj.
      destruct (IH (x :: seen) i j Hi Hj ltac:(lia)) as (k & Hk & Ha' & Hb').
      assert (Ha : x ≠ a).
      { intros ->. apply list_elem_of_lookup_2, unique_from_elem in Hi.
        destruct Hi as [_ Hi]. apply Hi. left. }
      exists (S k). split; [exact Hk|]. split.
      * intros [|k'] Hk'; simpl; [congruence | apply Ha'; lia].
      * intros [|k'] Hk'; simpl; [congruence | apply Hb'; lia].
Qed.

(** X7.  [get_all_pests] lists each value of the [pest_name] column once,
    in the order of first appearance (of two listed values, the earlier
    one first occurs in the column before any occurrence of the later
    one), and the empty list when there is no table.  It asks for the
    column by that one spelling: on a table that has no column
    [pest_name] it raises [KeyError], and nothing else. *)
Theorem get_all_pests_lists_each_once (self : PesticideRecommender.t) :
  match PesticideRecommender.get_all_pests self with
  | Ok pests =>
      NoDup pests
      ∧ (PesticideRecommender.pesticide_db self = None → pests = [])
      ∧ (∀ db, PesticideRecommender.pesticide_db self = Some db →
           "pest_name" ∈ columns db
           ∧ (∀ c, c ∈ pests ↔ c ∈ Pd.column db "pest_name")
           ∧ pests `sublist_of` Pd.column db "pest_name"
           ∧ (∀ i j a b, pests !! i = Some a → pests !! j = Some b → i < j →
                ∃ k, Pd.column db "pest_name" !! k = Some a
                     ∧ (∀ k', k' < k → Pd.column db "pest_name" !! k' ≠ Some a)
                     ∧ (∀ k', k' ≤ k → Pd.column db "pest_name" !! k' ≠ Some b)))
  | Raise e =>
      e = KeyError "pest_name"
      ∧ ∃ db, PesticideRecommender.pesticide_db self = Some db
              ∧ "pest_name" ∉ columns db
  end.
Proof.
  unfold PesticideRecommender.get_all_pests.
  destruct (PesticideRecommender.pesticide_db self) as [db|].
  - case_bool_decide as Hcol.
    + split; [apply unique_from_NoDup|]. split; [discriminate|].
      intros db' Hdb. injection Hdb as <-. split; [exact Hcol|]. split; [|split].
      * intros c. unfold Pd.unique. rewrite unique_from_elem. split; [tauto|].
        intros H. split; [exact H | intros Hn; inversion Hn].
      * apply unique_from_sublist.
      * intros i j a b. apply unique_from_order.
    + split; [reflexivity|]. eauto.
  - split; [constructor|]. split; [reflexivity | discriminate].
Qed.

(** X8.  The two readers of the table disagree on its columns: on a table
    whose pest column is spelled otherwise than [pest_name] (as "Pest Name"
    in a CSV), [get_recommendations] still answers a query for a pest of
    the table, while [get_all_pests] raises [KeyError]. *)
Theorem get_all_pests_rejects_other_spelling extern (db : DataFrame)
    (q pest_col pesticide_col : string) :
  PesticideRecommender.find_columns (columns db) None None
  = (Some pest_col, Some pesticide_col) →
  "pest_name" ∉ columns db →
  Re.plain (clean q) = true →
  rows (rows_where db (name_contains db pest_col (clean q))) ≠ [] →
  PesticideRecommender.get_all_pests {| PesticideRecommender.pesticide_db := Some db |}
  = Raise (KeyError "pest_name")
  ∧ ∃ rec recs,
      PesticideRecommender.get_recommendations extern (Some db) q = Ok (rec :: recs).
Proof.
  intros Hcols Hno Hp Hne. split.
  - unfold PesticideRecommender.get_all_pests. simpl.
    rewrite bool_decide_eq_false_2 by exact Hno. reflexivity.
  - rewrite (get_recommendations_direct extern db q pest_col pesticide_col Hcols
               (rows_where db (name_contains db pest_col (clean q)))).
    + unfold records, Pd.iterrows. destruct (rows (rows_where db _)); [contradiction|].
      simpl. eauto.
    + apply direct_match_plain; [|exact Hp].
      apply (selected_row_accepts db pest_col _ (name_contains_has_name db pest_col _) Hne).
    + unfold Pd.empty. destruct (rows _); [contradiction | reflexivity].
Qed.

Lemma get_all_pests_rejects_other_spelling_witness :
  PesticideRecommender.get_all_pests
    {| PesticideRecommender.pesticide_db := Some pestopia_table |}
  = Raise (KeyError "pest_name")
  ∧ ∃ rec recs,
      PesticideRecommender.get_recommendations (re_extern blank_env)
        (Some pestopia_table) "aphid" = Ok (rec :: recs).
Proof.
  refine (get_all_pests_rejects_other_spelling (re_extern blank_env) pestopia_table
            "aphid" "Pest Name" "Most Commonly Used Pesticides" eq_refl _ eq_refl _).
  - intros H. repeat (apply elem_of_cons in H as [H|H]; [discriminate H|]). inversion H.
  - discriminate.
Defined.

(** ** The class of a directory *)

Lemma find_first {A : Type} (f : A → bool) (l : list A) (x : A) :
  find f l = Some x →
  ∃ i, l !! i = Some x ∧ f x = true
       ∧ ∀ j y, j < i → l !! j = Some y → f y = false.
Proof.
  induction l as [|a l IH]; simpl; [discriminate|].
  destruct (f a) eqn:Ha.
  - intros H. injection H as <-. exists 0. split; [reflexivity|]. split; [exact Ha|].
    intros j y Hj. lia.
  - intros H. destruct (IH H) as (i & Hi & Hx & Hbefore).
    exists (S i). split; [exact Hi|]. split; [exact Hx|].
    intros [|j] y Hj Hy; simpl in Hy.
    + injection Hy as <-. exact Ha.
    + apply (Hbefore j); [lia | exact Hy].
Qed.

Lemma find_nothing {A : Type} (f : A → bool) (l : list A) :
  find f l = None → ∀ x, x ∈ l → f x = false.
Proof.
  intros H x Hx. apply (find_none f l H). apply list_elem_of_In, Hx.
Qed.

Lemma keyword_not_reserved (k : string) :
  k ∈ DataPreprocessor.pest_keywords → k ≠ "" ∧ k ≠ "images".
Proof.
  unfold DataPreprocessor.pest_keywords. intros H.
  repeat (apply elem_of_cons in H as [->|H]; [split; discriminate|]). inversion H.
Qed.

(** X9.  [extract_pest_class] answers with the first keyword of its list,
    in list order, that occurs in the lower-cased path; failing any, with
    the lower-cased last component of the path; and with nothing only
    when no keyword occurs and that component is empty or "images".  The
    class is never the empty string and never "images". *)
Theorem extract_pest_class_result (path : string) :
  match DataPreprocessor.extract_pest_class path with
  | Some c =>
      c ≠ "" ∧ c ≠ "images"
      ∧ ((∃ i, DataPreprocessor.pest_keywords !! i = Some c
               ∧ Str.str_in c (Str.lower path) = true
               ∧ ∀ j k, j < i → DataPreprocessor.pest_keywords !! j = Some k →
                   Str.str_in k (Str.lower path) = false)
         ∨ ((∀ k, k ∈ DataPreprocessor.pest_keywords →
               Str.str_in k (Str.lower path) = false)
            ∧ c = Str.lower (DataPreprocessor.basename path)))
  | None =>
      (∀ k, k ∈ DataPreprocessor.pest_keywords → Str.str_in k (Str.lower path) = false)
      ∧ (Str.lower (DataPreprocessor.basename path) = ""
         ∨ Str.lower (DataPreprocessor.basename path) = "images")
  end.
Proof.
  unfold DataPreprocessor.extract_pest_class.
  destruct (find _ DataPreprocessor.pest_keywords) as [k|] eqn:Hfind.
  - destruct (find_first _ _ _ Hfind) as (i & Hi & Hk & Hbefore).
    assert (Hin : k ∈ DataPreprocessor.pest_keywords)
      by (apply list_elem_of_lookup; eauto).
    destruct (keyword_not_reserved k Hin) as [H1 H2].
    split; [exact H1|]. split; [exact H2|]. left. eauto.
  - pose proof (find_nothing _ _ Hfind) as Hnone.
    do 2 case_bool_decide; simpl; try (split; [exact Hnone | auto]).
    split; [assumption|]. split; [assumption|]. right. auto.
Qed.

Lemma lower_char_idem (c : ascii) : Str.lower_char (Str.lower_char c) = Str.lower_char c.
Proof. destruct c as [[] [] [] [] [] [] [] []]; reflexivity. Qed.

Lemma lower_char_slash (c : ascii) : Ascii.eqb (Str.lower_char c) "/" = Ascii.eqb c "/".
Proof. destruct c as [[] [] [] [] [] [] [] []]; reflexivity. Qed.

Lemma lower_idem (s : string) : Str.lower (Str.lower s) = Str.lower s.
Proof. induction s as [|c s IH]; simpl; [reflexivity|]. rewrite lower_char_idem, IH. reflexivity. Qed.

Lemma lower_after_last_slash (acc s : string) :
  DataPreprocessor.after_last_slash (Str.lower acc) (Str.lower s)
  = Str.lower (DataPreprocessor.after_last_slash acc s).
Proof.
  revert acc. induction s as [|c s IH]; intros acc; simpl; [reflexivity|].
  rewrite lower_char_slash. destruct (Ascii.eqb c "/"); apply IH.
Qed.

(** X10.  The class of a directory does not depend on the letter case of
    its path: directories whose paths differ only in case are put in the
    same class. *)
Theorem extract_pest_class_ignores_case (path other : string) :
  Str.lower path = Str.lower other →
  DataPreprocessor.extract_pest_class path = DataPreprocessor.extract_pest_class other.
Proof.
  intros H. unfold DataPreprocessor.extract_pest_class, DataPreprocessor.basename.
  rewrite <- !lower_after_last_slash, H. reflexivity.
Qed.

Lemma extract_pest_class_ignores_case_witness :
  DataPreprocessor.extract_pest_class "data/ag_pests/Ants"
  = DataPreprocessor.extract_pest_class "data/AG_pests/ANTS".
Proof. apply extract_pest_class_ignores_case. reflexivity. Defined.

(** ** The copied files *)

Lemma string_length_append (s t : string) :
  String.length (s +:+ t) = String.length s + String.length t.
Proof. induction s as [|c s IH]; [reflexivity|]. rewrite append_cons. simpl. rewrite IH. reflexivity. Qed.

Lemma append_inj_r (s1 s2 t : string) : s1 +:+ t = s2 +:+ t → s1 = s2.
Proof.
  revert s2. induction s1 as [|c s1 IH]; intros [|c' s2] H.
  - reflexivity.
  - apply (f_equal String.length) in H.
    rewrite append_nil_l, append_cons in H. simpl in H.
    rewrite string_length_append in H. lia.
  - apply (f_equal String.length) in H.
    rewrite append_nil_l, append_cons in H. simpl in H.
    rewrite string_length_append in H. lia.
  - rewrite !append_cons in H. injection H as -> H. f_equal. apply IH, H.
Qed.

Lemma image_name_inj (c : string) (i j : nat) : image_name c i = image_name c j → i = j.
Proof.
  unfold image_name. intros H. apply (inj (String.app c)) in H.
  rewrite !append_cons, !append_nil_l in H. injection H as H.
  apply append_inj_r in H. apply (inj pretty) in H. exact H.
Qed.

Lemma class_dir_inj (c c' : string) : class_dir c = class_dir c' → c = c'.
Proof. unfold class_dir. apply (inj (String.app _)). Qed.

Lemma listdir_length (tr : gmap string (gmap string string)) (d : string) :
  length (DataPreprocessor.listdir tr d) = size (default ∅ (tr !! d)).
Proof.
  unfold DataPreprocessor.listdir. destruct (tr !! d) as [entries|]; simpl.
  - rewrite length_map. apply length_map_to_list.
  - reflexivity.
Qed.

Lemma makedirs_lookup (tr : gmap string (gmap string string)) (d d' : string) :
  default ∅ (DataPreprocessor.makedirs tr d !! d') = default ∅ (tr !! d').
Proof.
  unfold DataPreprocessor.makedirs. destruct (tr !! d) eqn:Hd; [reflexivity|].
  destruct (decide (d = d')) as [<-|Hne].
  - rewrite lookup_insert_eq, Hd. reflexivity.
  - rewrite lookup_insert_ne by exact Hne. reflexivity.
Qed.

(** The tree after one copy: the directory of the class gains the file
    numbered by its size, the other directories keep their files. *)
Lemma copy_image_tree (self : DataPreprocessor.t) (src_path pest_class c : string) :
  default ∅ (DataPreprocessor.tree
               (DataPreprocessor.copy_image_with_class self src_path pest_class)
             !! class_dir c)
  = if decide (pest_class = c)
    then <[image_name c (files_of (DataPreprocessor.tree self) c) := src_path]>
           (default ∅ (DataPreprocessor.tree self !! class_dir c))
    else default ∅ (DataPreprocessor.tree self !! class_dir c).
Proof.
  unfold DataPreprocessor.copy_image_with_class, DataPreprocessor.copy2. simpl.
  fold (class_dir pest_class). destruct (decide (pest_class = c)) as [->|Hne].
  - rewrite lookup_insert_eq. simpl. rewrite listdir_length, !makedirs_lookup.
    reflexivity.
  - rewrite lookup_insert_ne by (intros H; apply Hne, class_dir_inj, H).
    apply makedirs_lookup.
Qed.

Lemma numbered_default (tr : gmap string (gmap string string)) (c name : string) :
  numbered tr →
  is_Some (default ∅ (tr !! class_dir c) !! name)
  ↔ ∃ i, i < files_of tr c ∧ name = image_name c i.
Proof.
  intros Hn. unfold files_of. destruct (tr !! class_dir c) as [entries|] eqn:Hc; simpl.
  - apply (Hn c entries Hc).
  - rewrite lookup_empty, map_size_empty. split; [intros [x H]; discriminate|].
    intros (i & Hi & _). lia.
Qed.

Lemma numbered_fresh (tr : gmap string (gmap string string)) (c : string) :
  numbered tr →
  default ∅ (tr !! class_dir c) !! image_name c (files_of tr c) = None.
Proof.
  intros Hn. apply eq_None_not_Some. rewrite (numbered_default tr c _ Hn).
  intros (i & Hi & Heq). apply image_name_inj in Heq. lia.
Qed.

Lemma copy_image_files_of (self : DataPreprocessor.t) (src_path pest_class c : string) :
  numbered (DataPreprocessor.tree self) →
  files_of (DataPreprocessor.tree
              (DataPreprocessor.copy_image_with_class self src_path pest_class)) c
  = files_of (DataPreprocessor.tree self) c + (if decide (pest_class = c) then 1 else 0).
Proof.
  intros Hn. unfold files_of at 1. rewrite copy_image_tree.
  destruct (decide (pest_class = c)) as [->|Hne]; [|unfold files_of; lia].
  rewrite map_size_insert_None by (apply numbered_fresh, Hn). unfold files_of. lia.
Qed.

Lemma copy_image_numbered (self : DataPreprocessor.t) (src_path pest_class : string) :
  numbered (DataPreprocessor.tree self) →
  numbered (DataPreprocessor.tree
              (DataPreprocessor.copy_image_with_class self src_path pest_class)).
Proof.
  intros Hn c entries Hc name.
  pose proof (copy_image_tree self src_path pest_class c) as Ht.
  pose proof (copy_image_files_of self src_path pest_class c Hn) as Hsize.
  unfold files_of at 1 in Hsize. rewrite Hc in Ht, Hsize. simpl in Ht, Hsize.
  rewrite Hsize, Ht. destruct (decide (pest_class = c)) as [->|Hne].
  - rewrite lookup_insert_is_Some, (numbered_default _ c name Hn). split.
    + intros [<-|[_ (i & Hi & ->)]]; [exists (files_of (DataPreprocessor.tree self) c)|exists i];
        split; (lia || reflexivity).
    + intros (i & Hi & ->).
      destruct (decide (i = files_of (DataPreprocessor.tree self) c)) as [->|Hi'];
        [left; reflexivity|].
      right. split; [intros H; apply image_name_inj in H; congruence|].
      exists i. split; [lia | reflexivity].
  - rewrite (numbered_default _ c name Hn), Nat.add_0_r. reflexivity.
Qed.

Lemma numbered_empty : numbered (DataPreprocessor.tree DataPreprocessor.__init__).
Proof. intros c entries H. simpl in H. rewrite lookup_empty in H. discriminate. Qed.

(** X11.  In a tree whose class directories are numbered without gaps, a
    copy writes a new file: the image gets the next number of its class
    as its name, every file already there is kept with its content, the
    class has one file more, and the tree stays numbered. *)
Theorem copy_keeps_earlier_files (self : DataPreprocessor.t) (src_path pest_class : string) :
  numbered (DataPreprocessor.tree self) →
  let after := DataPreprocessor.copy_image_with_class self src_path pest_class in
  numbered (DataPreprocessor.tree after)
  ∧ files_of (DataPreprocessor.tree after) pest_class
    = S (files_of (DataPreprocessor.tree self) pest_class)
  ∧ default ∅ (DataPreprocessor.tree after !! class_dir pest_class)
      !! image_name pest_class (files_of (DataPreprocessor.tree self) pest_class)
    = Some src_path
  ∧ (∀ c name src,
       default ∅ (DataPreprocessor.tree self !! class_dir c) !! name = Some src →
       default ∅ (DataPreprocessor.tree after !! class_dir c) !! name = Some src).
Proof.
  intros Hn after. split; [apply copy_image_numbered, Hn|]. split; [|split].
  - unfold after. rewrite copy_image_files_of by exact Hn.
    rewrite decide_True by reflexivity. lia.
  - unfold after. rewrite copy_image_tree, decide_True by reflexivity.
    apply lookup_insert_eq.
  - intros c name src Hold. unfold after. rewrite copy_image_tree.
    destruct (decide (pest_class = c)) as [->|Hne]; [|exact Hold].
    rewrite lookup_insert_ne; [exact Hold|].
    intros <-. rewrite numbered_fresh in Hold by exact Hn. discriminate.
Qed.

Lemma copy_keeps_earlier_files_witness :
  files_of (DataPreprocessor.tree
              (DataPreprocessor.copy_image_with_class DataPreprocessor.__init__
                 "data/crop_pest/Aphids/1.jpg" "aphid")) "aphid" = 1.
Proof.
  apply (copy_keeps_earlier_files DataPreprocessor.__init__
           "data/crop_pest/Aphids/1.jpg" "aphid").
  intros c entries H. simpl in H. rewrite lookup_empty in H. discriminate H.
Defined.

Lemma copy_all_files (calls : list (string * string)) (self : DataPreprocessor.t) (c : string) :
  numbered (DataPreprocessor.tree self) →
  numbered (DataPreprocessor.tree (copy_all self calls))
  ∧ files_of (DataPreprocessor.tree (copy_all self calls)) c
    = files_of (DataPreprocessor.tree self) c
      + length (List.filter (fun call => bool_decide (snd call = c)) calls).
Proof.
  revert self. induction calls as [|[src c'] calls IH]; intros self Hn.
  - simpl. split; [exact Hn | lia].
  - change (copy_all self ((src, c') :: calls))
      with (copy_all (DataPreprocessor.copy_image_with_class self src c') calls).
    destruct (IH _ (copy_image_numbered self src c' Hn)) as [Hn' Hcount].
    split; [exact Hn'|]. rewrite Hcount, copy_image_files_of by exact Hn. simpl.
    destruct (decide (c' = c)) as [->|Hne].
    + rewrite bool_decide_eq_true_2 by reflexivity. simpl. lia.
    + rewrite bool_decide_eq_false_2 by exact Hne. lia.
Qed.

(** X12.  Starting from an empty tree, after any run of copies the
    directory of each class holds exactly as many files as images were
    copied into that class, named class_0.jpg, class_1.jpg, ... without
    gaps: no copy has overwritten another. *)
Theorem copies_counted_per_class (calls : list (string * string)) (c : string) :
  let tr := DataPreprocessor.tree (copy_all DataPreprocessor.__init__ calls) in
  files_of tr c = length (List.filter (fun call => bool_decide (snd call = c)) calls)
  ∧ ∀ name, is_Some (default ∅ (tr !! class_dir c) !! name)
            ↔ ∃ i, i < files_of tr c ∧ name = image_name c i.
Proof.
  intros tr. destruct (copy_all_files calls DataPreprocessor.__init__ c numbered_empty)
    as [Hn Hcount].
  split.
  - unfold tr. rewrite Hcount. reflexivity.
  - intros name. apply numbered_default, Hn.
Qed.

(** ** Where the classes come from *)

Lemma process_files_keys (root : string) (files : list string)
    (self : DataPreprocessor.t) (c : string) :
  c ∈ Dict.keys (DataPreprocessor.pest_classes
                   (DataPreprocessor.process_files self root files))
  ↔ c ∈ Dict.keys (DataPreprocessor.pest_classes self)
    ∨ (DataPreprocessor.extract_pest_class root = Some c
       ∧ ∃ file, file ∈ files ∧ is_image file = true).
Proof.
  revert self. induction files as [|file files IH]; intros self.
  - simpl. split; [auto|]. intros [H|[_ (file & Hf & _)]]; [exact H | inversion Hf].
  - cbn [DataPreprocessor.process_files]. rewrite IH. fold (is_image file).
    destruct (is_image file) eqn:Himg.
    + destruct (DataPreprocessor.extract_pest_class root) as [c'|] eqn:Hc.
      * rewrite copy_image_with_class_keys. split.
        -- intros [[->|H]|[Heq (f & Hf & Hi)]]; [right|left; exact H|right].
           ++ split; [reflexivity|]. exists file. split; [apply list_elem_of_here | exact Himg].
           ++ split; [exact Heq|]. exists f. split; [apply list_elem_of_further, Hf | exact Hi].
        -- intros [H|[Heq _]]; [left; right; exact H|].
           injection Heq as ->. left. left. reflexivity.
      * split; [intros [H|[Heq _]]; [left; exact H | discriminate]|].
        intros [H|[Heq _]]; [left; exact H | discriminate].
    + split.
      * intros [H|[Heq (f & Hf & Hi)]]; [left; exact H|]. right. split; [exact Heq|].
        exists f. split; [apply list_elem_of_further, Hf | exact Hi].
      * intros [H|[Heq (f & Hf & Hi)]]; [left; exact H|]. right. split; [exact Heq|].
        apply elem_of_cons in Hf as [->|Hf]; [congruence|]. eauto.
Qed.

Lemma process_pest_data_keys (env : Env) (path : string)
    (self : DataPreprocessor.t) (c : string) :
  c ∈ Dict.keys (DataPreprocessor.pest_classes
                   (DataPreprocessor.process_pest_data env self path))
  ↔ c ∈ Dict.keys (DataPreprocessor.pest_classes self)
    ∨ (path_exists env path = true
       ∧ ∃ root files,
           (root, files) ∈ walk env path
           ∧ DataPreprocessor.extract_pest_class root = Some c
           ∧ ∃ file, file ∈ files ∧ is_image file = true).
Proof.
  unfold DataPreprocessor.process_pest_data.
  destruct (path_exists env path).
  - generalize (walk env path). intros dirs. revert self.
    induction dirs as [|[root files] dirs IH]; intros self.
    + simpl. split; [auto|].
      intros [H|[_ (r & f & Hin & _)]]; [exact H | inversion Hin].
    + cbn [fold_left fst snd]. rewrite IH, process_files_keys. split.
      * intros [[H|[Hc Hf]]|[_ (r & f & Hin & Hc & Hf)]].
        -- left. exact H.
        -- right. split; [reflexivity|]. exists root, files.
           split; [apply list_elem_of_here | auto].
        -- right. split; [reflexivity|]. exists r, f.
           split; [apply list_elem_of_further, Hin | auto].
      * intros [H|[_ (r & f & Hin & Hc & Hf)]]; [left; left; exact H|].
        apply elem_of_cons in Hin as [Heq|Hin].
        -- injection Heq as -> ->. left. right. auto.
        -- right. split; [reflexivity|]. exists r, f. auto.
  - split; [auto|]. intros [H|[H _]]; [exact H | discriminate].
Qed.

Lemma extract_pest_class_parts (root c : string) :
  DataPreprocessor.extract_pest_class root = Some c → c ≠ "" ∧ c ≠ "images".
Proof.
  unfold DataPreprocessor.extract_pest_class.
  destruct (find _ DataPreprocessor.pest_keywords) as [k|] eqn:Hfind.
  - intros H. injection H as <-. apply keyword_not_reserved.
    destruct (find_first _ _ _ Hfind) as (i & Hi & _). apply list_elem_of_lookup. eauto.
  - do 2 case_bool_decide; simpl; intros Hc; try discriminate.
    injection Hc as <-. split; assumption.
Qed.

(** X13.  The classes of the table that preprocessing builds are exactly
    the classes of the directories, walked under data/crop_pest or
    data/ag_pests, that hold at least one file named as a PNG or JPEG
    image; none of them is the empty string or "images". *)
Theorem classes_come_from_image_directories (env : Env) (c : string) :
  c ∈ Dict.keys (DataPreprocessor.pest_classes (DataPreprocessor.create_unified_dataset env))
  ↔ ∃ path root files file,
      path ∈ ["data/crop_pest"; "data/ag_pests"]
      ∧ path_exists env path = true
      ∧ (root, files) ∈ walk env path
      ∧ DataPreprocessor.extract_pest_class root = Some c
      ∧ file ∈ files
      ∧ is_image file = true
      ∧ c ≠ "" ∧ c ≠ "images".
Proof.
  unfold DataPreprocessor.create_unified_dataset.
  rewrite !process_pest_data_keys.
  assert (Hres : ∀ root, DataPreprocessor.extract_pest_class root = Some c →
                         c ≠ "" ∧ c ≠ "images").
  { intros root. apply extract_pest_class_parts. }
  split.
  - intros [[H|[Hp (root & files & Hin & Hc & file & Hf & Hi)]]
           |[Hp (root & files & Hin & Hc & file & Hf & Hi)]].
    + inversion H.
    + exists "data/crop_pest", root, files, file. destruct (Hres root Hc).
      repeat split; try assumption. apply list_elem_of_here.
    + exists "data/ag_pests", root, files, file. destruct (Hres root Hc).
      repeat split; try assumption. apply list_elem_of_further, list_elem_of_here.
  - intros (path & root & files & file & Hpath & Hp & Hin & Hc & Hf & Hi & _).
    apply elem_of_cons in Hpath as [->|Hpath].
    + left. right. split; [exact Hp|]. exists root, files. eauto.
    + apply list_elem_of_singleton in Hpath as ->.
      right. split; [exact Hp|]. exists root, files. eauto.
Qed.

(** ** Reading the image *)




(** ** When [predict_pest] returns *)

(** X15.  [predict_pest] returns exactly when the image path exists, the
    loader reads the image and the model answers with a non-empty vector.
    A missing path raises the not-found error before anything is loaded,
    and an empty vector raises a [ValueError]. *)
Theorem predict_pest_returns_iff (env : Env) (self : PestDetector.t) (img_path : string) :
  ((∃ r, PestDetector.predict_pest env self img_path = Ok r)
   ↔ path_exists env img_path = true
     ∧ ∃ img predictions,
         load_img env img_path = Ok img
         ∧ PestDetector.model self (map (fun p => (inject_Z p / 255)%Q) img) = Ok predictions
         ∧ predictions ≠ [])
  ∧ (path_exists env img_path = false →
     PestDetector.predict_pest env self img_path
     = Raise (FileNotFoundError ("Image not found: " +:+ img_path)))
  ∧ (∀ x, PestDetector.preprocess_image env img_path = Ok x →
          PestDetector.model self x = Ok [] →
          ∃ msg, PestDetector.predict_pest env self img_path = Raise (ValueError msg)).
Proof.
  unfold PestDetector.predict_pest, PestDetector.preprocess_image.
  split; [|split].
  - destruct (path_exists env img_path); simpl.
    + destruct (load_img env img_path) as [img|e]; simpl.
      * destruct (PestDetector.model self _) as [predictions|e] eqn:Hm; simpl.
        -- destruct predictions as [|p ps]; simpl.
           ++ split; [intros [r H]; discriminate|].
              intros [_ (img' & preds & Hi & Hp & Hne)]. injection Hi as <-.
              rewrite Hm in Hp. injection Hp as <-. contradiction.
           ++ split; [|eauto]. intros _. split; [reflexivity|].
              exists img, (p :: ps). rewrite Hm. split; [reflexivity|].
              split; [reflexivity | discriminate].
        -- split; [intros [r H]; discriminate|].
           intros [_ (img' & preds & Hi & Hp & _)]. injection Hi as <-.
           rewrite Hm in Hp. discriminate.
      * split; [intros [r H]; discriminate|].
        intros [_ (img' & preds & Hi & _)]. discriminate.
    + split; [intros [r H]; discriminate | intros [H _]; discriminate].
  - intros ->. reflexivity.
  - intros x Hx Hm. rewrite Hx. simpl. rewrite Hm. simpl. eauto.
Qed.

(** ** From the saved class table to the detector *)

Lemma reverse_mapping_from_sound (cm : list (string * Z)) (m : gmap Z string)
    (name : string) (i : Z) :
  fold_left (fun m kv => <[snd kv := fst kv]> m) cm m !! i = Some name →
  (name, i) ∈ cm ∨ m !! i = Some name.
Proof.
  revert m. induction cm as [|[k v] cm IH]; intros m; simpl; [auto|].
  intros H. destruct (IH _ H) as [Hin|Hm].
  - left. apply list_elem_of_further, Hin.
  - destruct (decide (v = i)) as [->|Hne].
    + rewrite lookup_insert_eq in Hm. injection Hm as ->. left. apply list_elem_of_here.
    + rewrite lookup_insert_ne in Hm by exact Hne. right. exact Hm.
Qed.

Lemma reverse_mapping_sound (cm : list (string * Z)) (name : string) (i : Z) :
  PestDetector.reverse_mapping cm !! i = Some name → (name, i) ∈ cm.
Proof.
  intros H. destruct (reverse_mapping_from_sound cm ∅ name i H) as [Hin|He]; [exact Hin|].
  rewrite lookup_empty in He. discriminate.
Qed.

Lemma saved_item (pc : list (string * nat)) (name : string) (z : Z) :
  (name, z) ∈ map (fun kv => (fst kv, Z.of_nat (snd kv))) pc
  ↔ ∃ i, z = Z.of_nat i ∧ (name, i) ∈ pc.
Proof.
  rewrite list_elem_of_In, in_map_iff. split.
  - intros ([k i] & Heq & Hin). simpl in Heq. injection Heq as -> <-.
    exists i. split; [reflexivity | apply list_elem_of_In, Hin].
  - intros (i & -> & Hin). exists (name, i). split; [reflexivity | apply list_elem_of_In, Hin].
Qed.

Lemma saved_values_NoDup (pc : list (string * nat)) :
  dense pc → NoDup (Dict.values (map (fun kv => (fst kv, Z.of_nat (snd kv))) pc)).
Proof.
  intros [_ Hval]. unfold Dict.values in *. rewrite map_map. simpl.
  rewrite <- (map_map snd Z.of_nat), Hval.
  apply (NoDup_fmap_2 Z.of_nat), NoDup_seq.
Qed.

Lemma saved_mapping_lookup (pc : list (string * nat)) (name : string) (i : nat) :
  dense pc →
  PestDetector.reverse_mapping (map (fun kv => (fst kv, Z.of_nat (snd kv))) pc)
    !! Z.of_nat i = Some name
  ↔ Dict.get pc name = Some i.
Proof.
  intros Hd. split.
  - intros H. apply reverse_mapping_sound, saved_item in H as (j & Hj & Hin).
    apply Nat2Z.inj in Hj as ->. apply dict_get_item; [apply Hd | exact Hin].
  - intros H. apply reverse_mapping_Some; [apply saved_values_NoDup, Hd|].
    apply saved_item. exists i. split; [reflexivity | apply dict_get_elem, H].
Qed.

Lemma init_class_mapping (env : Env) (mp cp : string) (self : PestDetector.t) :
  PestDetector.__init__ env mp cp = Ok self →
  json_load env cp = Ok (PestDetector.class_mapping self).
Proof.
  unfold PestDetector.__init__.
  destruct (negb (path_exists env mp)); [discriminate|].
  destruct (load_model env mp); simpl; [|discriminate].
  destruct (negb (path_exists env cp)); [discriminate|].
  destruct (json_load env cp); simpl; [|discriminate].
  intros H. injection H as <-. reflexivity.
Qed.

(** X16.  A detector built on the class table that preprocessing saved
    reads it back faithfully: its reverse index gives index i the class
    that the table numbered i, and no other.  So when the model answers
    with at most as many probabilities as there are classes, the name
    [predict_pest] returns is the class of the table at the arg-max
    index, never the "Unknown" default. *)
Theorem saved_table_names_every_prediction (env : Env) (pre : DataPreprocessor.t)
    (mp cp : string) (self : PestDetector.t) (img_path : string) (x : Tensor)
    (predictions : list Q) :
  dense (DataPreprocessor.pest_classes pre) →
  json_load env cp = Ok (DataPreprocessor.save_class_mapping pre) →
  PestDetector.__init__ env mp cp = Ok self →
  PestDetector.preprocess_image env img_path = Ok x →
  PestDetector.model self x = Ok predictions →
  predictions ≠ [] →
  length predictions ≤ length (DataPreprocessor.pest_classes pre) →
  (∀ i name,
     PestDetector.idx_to_class self !! Z.of_nat i = Some name
     ↔ Dict.get (DataPreprocessor.pest_classes pre) name = Some i)
  ∧ ∃ name confidence i,
      PestDetector.predict_pest env self img_path = Ok (name, confidence)
      ∧ Dict.get (DataPreprocessor.pest_classes pre) name = Some i
      ∧ predictions !! i = Some confidence.
Proof.
  intros Hd Hjson Hinit Hx Hp Hne Hlen.
  assert (Hidx : ∀ i name,
            PestDetector.idx_to_class self !! Z.of_nat i = Some name
            ↔ Dict.get (DataPreprocessor.pest_classes pre) name = Some i).
  { intros i name. rewrite (init_reverse_mapping env mp cp self Hinit).
    pose proof (init_class_mapping env mp cp self Hinit) as Hcm.
    rewrite Hjson in Hcm. injection Hcm as <-.
    apply saved_mapping_lookup, Hd. }
  split; [exact Hidx|].
  destruct (argmax_spec predictions Hne) as (i & c & Ha & Hc & _).
  assert (Hi : i < length (DataPreprocessor.pest_classes pre)).
  { apply lookup_lt_Some in Hc. lia. }
  apply (proj1 (dense_indices _ Hd)) in Hi as [name Hname].
  exists name, c, i. split; [|split; assumption].
  rewrite (predict_pest_decoded env self img_path x predictions i c Hx Hp Ha Hc).
  rewrite (proj2 (Hidx i name) Hname). reflexivity.
Qed.

Lemma saved_table_names_every_prediction_witness :
  ∃ name confidence i,
    PestDetector.predict_pest trained_env trained_detector "leaf.jpg" = Ok (name, confidence)
    ∧ Dict.get [("aphid", 0); ("mite", 1); ("thrips", 2)] name = Some i
    ∧ [(1 # 10); (7 # 10); (2 # 10)]%Q !! i = Some confidence.
Proof.
  refine (proj2 (saved_table_names_every_prediction trained_env
                   {| DataPreprocessor.pest_classes :=
                        [("aphid", 0); ("mite", 1); ("thrips", 2)];
                      DataPreprocessor.tree := ∅ |}
                   PestDetector.model_path PestDetector.mapping_path trained_detector
                   "leaf.jpg" [(0 / 255)%Q; (128 / 255)%Q; (255 / 255)%Q]
                   [(1 # 10); (7 # 10); (2 # 10)]%Q
                   _ eq_refl eq_refl eq_refl eq_refl _ _)).
  - split; [|reflexivity]. simpl. refine (bool_decide_unpack _ _). vm_compute. exact I.
  - discriminate.
  - simpl. lia.
Defined.

(** ** Start-up and the page *)

(** X17.  Start-up reports success exactly when both components are set,
    and then shows nothing.  On failure it shows one error message and
    the recommender is unset; the detector is unset when its own
    construction failed, and stays set when only the recommender's
    construction failed.  The recommender is never set without the
    detector. *)
Theorem initialize_components_outcome (env : Env) :
  let app := (PestDetectionApp.initialize_components env).1.1 in
  let shown := (PestDetectionApp.initialize_components env).1.2 in
  let ok := (PestDetectionApp.initialize_components env).2 in
  (ok = true ↔ is_Some (PestDetectionApp.detector app)
               ∧ is_Some (PestDetectionApp.recommender app))
  ∧ (ok = true → shown = [])
  ∧ (ok = false →
     PestDetectionApp.recommender app = None
     ∧ ∃ e, shown = [PestDetectionApp.st_error
                       ("Error initializing components: " +:+ exn_str e)]
            ∧ (PestDetector.__init__ env PestDetector.model_path PestDetector.mapping_path
               = Raise e
               ∧ PestDetectionApp.detector app = None
               ∨ PesticideRecommender.__init__ env = Raise e
                 ∧ is_Some (PestDetectionApp.detector app)))
  ∧ (PestDetectionApp.detector app = None → PestDetectionApp.recommender app = None).
Proof.
  unfold PestDetectionApp.initialize_components.
  destruct (PestDetector.__init__ env _ _) as [d|e]; simpl.
  - destruct (PesticideRecommender.__init__ env) as [r|e]; simpl.
    + split; [split; [intros _; split; eauto | reflexivity]|].
      split; [reflexivity|]. split; discriminate.
    + split; [split; [discriminate | intros [_ [r H]]; discriminate]|].
      split; [discriminate|]. split; [|discriminate].
      intros _. split; [reflexivity|]. exists e. split; [reflexivity|]. right. eauto.
  - split; [split; [discriminate | intros [[d H] _]; discriminate]|].
    split; [discriminate|]. split; [|reflexivity].
    intros _. split; [reflexivity|]. exists e. split; [reflexivity|]. left. auto.
Qed.

(** X18.  After a failed start-up the page is the not-initialized notice
    whatever is uploaded or clicked: no upload is read and the detector
    is not asked anything. *)
Theorem run_refuses_after_failed_start (env : Env)
    (uploaded_file : option (result Image)) (clicked : bool) :
  (PestDetectionApp.initialize_components env).2 = false →
  PestDetectionApp.run env (PestDetectionApp.initialize_components env).1.1
    uploaded_file clicked
  = PestDetectionApp.not_initialized.
Proof.
  unfold PestDetectionApp.initialize_components.
  destruct (PestDetector.__init__ env _ _) as [d|e]; simpl.
  - destruct (PesticideRecommender.__init__ env) as [r|e]; simpl;
      [discriminate | reflexivity].
  - reflexivity.
Qed.

Lemma run_refuses_after_failed_start_witness :
  PestDetectionApp.run blank_env (PestDetectionApp.initialize_components blank_env).1.1
    (Some (Ok [0%Z; 128%Z; 255%Z])) true
  = PestDetectionApp.not_initialized.
Proof. apply run_refuses_after_failed_start. reflexivity. Defined.

(** X19.  Given records that carry the keys [effectiveness],
    [pesticide_name] and [application_rate], the loop of the
    recommendations page completes and shows one card per record, in
    order, numbered from its starting number, with the values of the
    record. *)
Theorem show_recommendations_cards (i : nat) (recs : list (list (string * cell))) :
  Forall displayable recs →
  ∃ cards,
    PestDetectionApp.show_recommendations i recs = (cards, Ok tt)
    ∧ length cards = length recs
    ∧ ∀ k rec, recs !! k = Some rec →
        ∃ name rate eff,
          Dict.get rec "pesticide_name" = Some name
          ∧ Dict.get rec "application_rate" = Some rate
          ∧ Dict.get rec "effectiveness" = Some eff
          ∧ cards !! k
            = Some (PestDetectionApp.pesticide_card (i + k) name rate eff
                      (PestDetectionApp.effectiveness_emoji eff)).
Proof.
  intros Hall. revert i. induction Hall as [|rec recs Hrec _ IH]; intros i.
  - exists []. split; [reflexivity|]. split; [reflexivity|]. intros k rec H. discriminate.
  - destruct Hrec as ([eff Heff] & [name Hname] & [rate Hrate]).
    destruct (IH (S i)) as (cards & Hshow & Hlen & Hcards).
    exists (PestDetectionApp.pesticide_card i name rate eff
              (PestDetectionApp.effectiveness_emoji eff) :: cards).
    split; [|split].
    + cbn [PestDetectionApp.show_recommendations]. unfold PestDetectionApp.getitem.
      rewrite Heff, Hname, Hrate, Hshow. reflexivity.
    + simpl. rewrite Hlen. reflexivity.
    + intros [|k] rec' Hk; simpl in Hk.
      * injection Hk as <-. exists name, rate, eff. rewrite Nat.add_0_r. auto.
      * destruct (Hcards k rec' Hk) as (n & r & e & Hn & Hr & He & Hc).
        exists n, r, e. replace (i + S k) with (S i + k) by lia. auto.
Qed.

Lemma show_recommendations_cards_witness :
  ∃ cards,
    PestDetectionApp.show_recommendations 1
      [[("pest_name", CStr "aphid"); ("pesticide_name", CStr "Neem oil");
        ("application_rate", CStr "5ml/L"); ("effectiveness", CStr "Medium")]]
    = (cards, Ok tt)
    ∧ length cards = 1.
Proof.
  destruct (show_recommendations_cards 1
              [[("pest_name", CStr "aphid"); ("pesticide_name", CStr "Neem oil");
                ("application_rate", CStr "5ml/L"); ("effectiveness", CStr "Medium")]])
    as (cards & Hshow & Hlen & _).
  - constructor; [|constructor]. unfold displayable. simpl. eauto.
  - exists cards. split; assumption.
Defined.

(** ** run_system.py *)

Lemma check_loop_filter (env : Env) (files missing_files : list string) :
  RunSystem.check_loop env files missing_files
  = missing_files ++ List.filter (fun file => negb (path_exists env file)) files.
Proof.
  revert missing_files. induction files as [|file files IH]; intros missing_files; simpl.
  - rewrite app_nil_r. reflexivity.
  - destruct (path_exists env file); simpl; rewrite IH; [reflexivity|].
    rewrite <- app_assoc. reflexivity.
Qed.

(** X20.  [check_requirements] returns the required files that do not
    exist, in the order of the list of required files; it returns the
    empty list exactly when the model, the class mapping and app.py all
    exist. *)
Theorem check_requirements_lists_missing (env : Env) :
  RunSystem.check_requirements env
  = List.filter (fun file => negb (path_exists env file)) RunSystem.required_files
  ∧ (RunSystem.check_requirements env = []
     ↔ path_exists env "models/pest_detection_model.h5" = true
       ∧ path_exists env "processed_data/class_mapping.json" = true
       ∧ path_exists env "app.py" = true).
Proof.
  unfold RunSystem.check_requirements. rewrite check_loop_filter. split; [reflexivity|].
  simpl.
  destruct (path_exists env "models/pest_detection_model.h5"),
           (path_exists env "processed_data/class_mapping.json"),
           (path_exists env "app.py"); simpl;
    (split; [intros H; try discriminate H; auto | intros (H1 & H2 & H3); try discriminate; auto]).
Qed.

Lemma run_steps_outcome (run : list string → result (Z * string))
    (todo : list (string * string)) :
  let commands := map (fun st => Str.split (snd st)) todo in
  match RunSystem.run_steps run todo with
  | (launched, true) => launched = commands ∧ Forall (succeeded run) launched
  | (launched, false) =>
      ∃ before failing after,
        commands = before ++ failing :: after
        ∧ launched = before ++ [failing]
        ∧ Forall (succeeded run) before
        ∧ ¬ succeeded run failing
  end.
Proof.
  induction todo as [|[description command] todo IH]; simpl.
  - split; [reflexivity | constructor].
  - destruct (run (Str.split command)) as [[returncode stderr]|e] eqn:Hrun.
    + destruct (Z.eqb returncode 0) eqn:Hcode.
      * apply Z.eqb_eq in Hcode. subst returncode.
        destruct (RunSystem.run_steps run todo) as [launched ok].
        assert (Hok : succeeded run (Str.split command)) by (exists stderr; exact Hrun).
        destruct ok.
        -- destruct IH as [-> Hall]. split; [reflexivity|]. constructor; assumption.
        -- destruct IH as (before & failing & after & Hc & -> & Hall & Hfail).
           exists (Str.split command :: before), failing, after.
           rewrite Hc. repeat split; try reflexivity; [constructor|]; assumption.
      * exists [], (Str.split command), (map (fun st => Str.split (snd st)) todo).
        repeat split; try reflexivity; [constructor|].
        intros [err Herr]. rewrite Hrun in Herr. injection Herr as -> _. discriminate.
    + exists [], (Str.split command), (map (fun st => Str.split (snd st)) todo).
      repeat split; try reflexivity; [constructor|].
      intros [err Herr]. rewrite Hrun in Herr. discriminate.
Qed.

(** X21.  [setup_system] launches the four steps in order (download,
    preprocess, train, test the recommender) and stops at the first one
    that cannot be started or exits with a non-zero code: it returns
    True exactly when all four were launched and exited with 0, and
    otherwise the failing step is the last one launched. *)
Theorem setup_stops_at_first_failure (run : list string → result (Z * string)) :
  match RunSystem.setup_system run with
  | (launched, true) => launched = step_commands ∧ Forall (succeeded run) launched
  | (launched, false) =>
      ∃ before failing after,
        step_commands = before ++ failing :: after
        ∧ launched = before ++ [failing]
        ∧ Forall (succeeded run) before
        ∧ ¬ succeeded run failing
  end.
Proof. apply (run_steps_outcome run RunSystem.steps). Qed.

(** X22.  [main] starts the web application, as its last command, exactly
    when no required file was missing or every set-up step succeeded.  It
    runs no set-up step when nothing is missing, and after a set-up that
    succeeded it starts the application without looking for the files
    again. *)
Theorem main_starts_app (run : list string → result (Z * string)) (env : Env) :
  (last (RunSystem.main run env) = Some ["streamlit"; "run"; "app.py"]
   ↔ RunSystem.check_requirements env = [] ∨ (RunSystem.setup_system run).2 = true)
  ∧ (RunSystem.check_requirements env = [] →
     RunSystem.main run env = [["streamlit"; "run"; "app.py"]])
  ∧ (RunSystem.check_requirements env ≠ [] →
     (RunSystem.setup_system run).2 = true →
     RunSystem.main run env = step_commands ++ [["streamlit"; "run"; "app.py"]]).
Proof.
  unfold RunSystem.main.
  pose proof (run_steps_outcome run RunSystem.steps) as Hsetup.
  change (RunSystem.run_steps run RunSystem.steps) with (RunSystem.setup_system run) in Hsetup.
  change (map (fun st => Str.split (snd st)) RunSystem.steps) with step_commands in Hsetup.
  cbv zeta in Hsetup.
  destruct (RunSystem.check_requirements env) as [|file missing].
  - split; [split; auto|]. split; [reflexivity | contradiction].
  - destruct (RunSystem.setup_system run) as [launched ok]. destruct ok; simpl.
    + destruct Hsetup as [-> _]. split; [split; [auto | reflexivity]|].
      split; [discriminate | reflexivity].
    + destruct Hsetup as (before & failing & after & Hc & -> & _).
      split; [|split; [discriminate | discriminate]].
      split; [|intros [H|H]; discriminate].
      rewrite last_snoc. intros H. injection H as ->. exfalso.
      assert (Hin : ["streamlit"; "run"; "app.py"] ∈ step_commands).
      { rewrite Hc. apply elem_of_app. right. apply list_elem_of_here. }
      unfold step_commands in Hin.
      repeat (apply elem_of_cons in Hin as [Hin|Hin]; [discriminate Hin|]).
      inversion Hin.
Qed.

(** ** What the partial match can find *)

Lemma partial_loop_cases (db : DataFrame) (pest_col q : string)
    (col : list cell) (m : DataFrame) :
  PesticideRecommender.partial_loop db pest_col q col m = m
  ∨ ∃ pest, pest ∈ col
            ∧ PesticideRecommender.partial_match q pest = true
            ∧ PesticideRecommender.partial_loop db pest_col q col m
              = rows_where db (fun r => Pd.same_value (pest_of db pest_col r) pest).
Proof.
  induction col as [|c col IH]; simpl; [left; reflexivity|].
  destruct (PesticideRecommender.partial_match q c) eqn:Hc.
  - right. exists c. split; [apply list_elem_of_here|]. split; [exact Hc|].
    apply eq_value_rows.
  - destruct IH as [IH|(pest & Hin & Hp & IH)]; [left; exact IH|].
    right. exists pest. split; [apply list_elem_of_further, Hin | auto].
Qed.

(** A call that returns was made on a column the accessor accepts. *)
Lemma get_recommendations_accepted extern (db : DataFrame)
    (q pest_col pesticide_col : string) (recs : list (list (string * cell))) :
  PesticideRecommender.find_columns (columns db) None None
  = (Some pest_col, Some pesticide_col) →
  PesticideRecommender.get_recommendations extern (Some db) q = Ok recs →
  Pd.accepts_str (Pd.column db pest_col) = true.
Proof.
  intros Hcols Hrec. destruct (Pd.accepts_str (Pd.column db pest_col)) eqn:Ha; [reflexivity|].
  rewrite (get_recommendations_raise extern db q pest_col pesticide_col Hcols _
             (direct_match_refused extern db pest_col (clean q) Ha)) in Hrec.
  discriminate.
Qed.

Lemma to_rec_pest_name (pest_col pesticide_col : string) (row : Series) :
  Dict.get (PesticideRecommender.to_rec pest_col pesticide_col row) "pest_name"
  = Some (Pd.series_get row pest_col).
Proof. by_optional_columns; reflexivity. Qed.

(** X23.  For a query without pattern metacharacters that no pest name
    contains, the partial match can only find a pest whose whole name
    occurs in the query: every record returned carries a pest name that,
    lower-cased, is a substring of the cleaned query. *)
Theorem partial_match_finds_names_inside_query extern (db : DataFrame)
    (q pest_col pesticide_col : string) (recs : list (list (string * cell))) :
  PesticideRecommender.find_columns (columns db) None None
  = (Some pest_col, Some pesticide_col) →
  Re.plain (clean q) = true →
  rows (rows_where db (name_contains db pest_col (clean q))) = [] →
  PesticideRecommender.get_recommendations extern (Some db) q = Ok recs →
  Forall (fun rec =>
            ∃ s, Dict.get rec "pest_name" = Some (CStr s)
                 ∧ Str.str_in (Str.lower s) (clean q) = true) recs.
Proof.
  intros Hcols Hp Hnone Hrec.
  assert (Hd := direct_match_plain extern db pest_col (clean q)
                  (get_recommendations_accepted _ _ _ _ _ _ Hcols Hrec) Hp).
  rewrite (get_recommendations_partial extern db q pest_col pesticide_col Hcols _ Hd)
    in Hrec by (unfold Pd.empty; rewrite Hnone; reflexivity).
  injection Hrec as <-.
  destruct (partial_loop_cases db pest_col (clean q) (Pd.column db pest_col)
              (rows_where db (name_contains db pest_col (clean q))))
    as [->|(pest & Hin & Hmatch & ->)].
  - rewrite (records_no_rows _ _ _ Hnone). constructor.
  - unfold records, Pd.iterrows. rewrite !Forall_map. simpl.
    apply Forall_forall. intros r Hr.
    apply list_elem_of_In, filter_In in Hr as [Hr Hsame].
    rewrite to_rec_pest_name. unfold Pd.series_get. simpl.
    fold (pest_of db pest_col r). unfold Pd.same_value in Hsame.
    destruct (pest_of db pest_col r) as [s|] eqn:Hs; [|discriminate].
    destruct pest as [s'|]; [|discriminate].
    apply bool_decide_eq_true in Hsame as <-.
    exists s. split; [reflexivity|].
    unfold PesticideRecommender.partial_match in Hmatch. simpl in Hmatch.
    apply orb_true_iff in Hmatch as [Hcontains|Hinside]; [|exact Hinside].
    exfalso. pose proof (filter_nil_none _ _ Hnone r Hr) as Hno.
    unfold name_contains in Hno. rewrite Hs, Hcontains in Hno. discriminate.
Qed.

Lemma partial_match_finds_names_inside_query_witness :
  Forall (fun rec =>
            ∃ s, Dict.get rec "pest_name" = Some (CStr s)
                 ∧ Str.str_in (Str.lower s) (clean "Green Aphid") = true)
    [[("pest_name", CStr "aphid"); ("pesticide", CStr "Imidacloprid");
      ("application_rate", CStr "0.5ml/L"); ("effectiveness", CStr "High")];
     [("pest_name", CStr "aphid"); ("pesticide", CStr "Thiamethoxam");
      ("application_rate", CStr "0.3g/L"); ("effectiveness", CStr "High")];
     [("pest_name", CStr "aphid"); ("pesticide", CStr "Acetamiprid");
      ("application_rate", CStr "0.6ml/L"); ("effectiveness", CStr "Medium")]].
Proof.
  apply (partial_match_finds_names_inside_query (re_extern blank_env)
           PesticideRecommender.default_database "Green Aphid"
           "pest_name" "pesticide_name"); reflexivity.
Defined.

(** ** The indices of the class table *)

Lemma dict_get_set (d : list (string * nat)) (k k' : string) (v : nat) :
  Dict.get (Dict.set d k v) k' = if decide (k' = k) then Some v else Dict.get d k'.
Proof.
  induction d as [|[k0 v0] d IH]; simpl.
  - destruct (decide (k' = k)); reflexivity.
  - destruct (decide (k = k0)) as [->|Hne]; simpl.
    + destruct (decide (k' = k0)); reflexivity.
    + destruct (decide (k' = k0)) as [->|Hne'].
      * rewrite decide_False by congruence. reflexivity.
      * exact IH.
Qed.

Lemma dict_mem_get (d : list (string * nat)) (k : string) :
  Dict.mem d k = false ↔ Dict.get d k = None.
Proof. unfold Dict.mem. destruct (Dict.get d k); split; (discriminate || reflexivity). Qed.

(** X24.  A copy never changes the index of a class that has one, and
    gives a class that has none the number of classes recorded so far;
    so over any run of copies an index, once given, stays. *)
Theorem class_indices_are_stable (self : DataPreprocessor.t) (calls : list (string * string)) :
  (∀ c i, Dict.get (DataPreprocessor.pest_classes self) c = Some i →
          Dict.get (DataPreprocessor.pest_classes (copy_all self calls)) c = Some i)
  ∧ (∀ src c,
       Dict.get (DataPreprocessor.pest_classes self) c = None →
       Dict.get (DataPreprocessor.pest_classes
                   (DataPreprocessor.copy_image_with_class self src c)) c
       = Some (length (DataPreprocessor.pest_classes self))).
Proof.
  assert (Hstep : ∀ (s : DataPreprocessor.t) src c' c i,
            Dict.get (DataPreprocessor.pest_classes s) c = Some i →
            Dict.get (DataPreprocessor.pest_classes
                        (DataPreprocessor.copy_image_with_class s src c')) c = Some i).
  { intros s src c' c i Hget. unfold DataPreprocessor.copy_image_with_class. simpl.
    destruct (Dict.mem (DataPreprocessor.pest_classes s) c') eqn:Hm; simpl; [exact Hget|].
    rewrite dict_get_set. destruct (decide (c = c')) as [->|Hne]; [|exact Hget].
    apply dict_mem_get in Hm. congruence. }
  split.
  - revert self. induction calls as [|[src c'] calls IH]; intros self c i Hget; [exact Hget|].
    change (copy_all self ((src, c') :: calls))
      with (copy_all (DataPreprocessor.copy_image_with_class self src c') calls).
    apply IH, Hstep, Hget.
  - intros src c Hnone. unfold DataPreprocessor.copy_image_with_class. simpl.
    rewrite (proj2 (dict_mem_get _ _) Hnone). simpl.
    rewrite dict_get_set, decide_True by reflexivity. reflexivity.
Qed.

(** ** Cleaning the query *)

Lemma append_assoc (s t u : string) : (s +:+ t) +:+ u = s +:+ (t +:+ u).
Proof. induction s as [|c s IH]; [reflexivity|]. rewrite !append_cons, IH. reflexivity. Qed.

Lemma rev_app_spec (s acc : string) : String.rev_app s acc = String.rev s +:+ acc.
Proof.
  revert acc. induction s as [|c s IH]; intros acc; [reflexivity|].
  unfold String.rev. simpl. rewrite (IH (String c acc)), (IH (String c "")).
  rewrite append_assoc. reflexivity.
Qed.

Lemma rev_cons (c : ascii) (s : string) : String.rev (String c s) = String.rev s +:+ String c "".
Proof. unfold String.rev at 1. simpl. apply rev_app_spec. Qed.

Lemma rev_snoc (c : ascii) (s : string) : String.rev (s +:+ String c "") = String c (String.rev s).
Proof.
  induction s as [|a s IH]; [reflexivity|].
  rewrite append_cons, !rev_cons, IH. reflexivity.
Qed.

Lemma rev_involutive (s : string) : String.rev (String.rev s) = s.
Proof. induction s as [|c s IH]; [reflexivity|]. rewrite rev_cons, rev_snoc, IH. reflexivity. Qed.

Lemma lstrip_snoc (u : string) (c : ascii) :
  Str.lstrip (u +:+ String c "")
  = match Str.lstrip u with
    | EmptyString => if Str.is_space c then EmptyString else String c ""
    | String _ _ as w => w +:+ String c ""
    end.
Proof.
  induction u as [|a u IH]; [reflexivity|].
  rewrite append_cons. simpl. destruct (Str.is_space a); [exact IH | reflexivity].
Qed.

(** [rstrip], read from the left. *)
Lemma rstrip_cons (c : ascii) (s : string) :
  Str.rstrip (String c s)
  = match Str.rstrip s with
    | EmptyString => if Str.is_space c then EmptyString else String c ""
    | String _ _ as w => String c w
    end.
Proof.
  unfold Str.rstrip. rewrite rev_cons, lstrip_snoc.
  destruct (Str.lstrip (String.rev s)) as [|a w] eqn:Hw.
  - destruct (Str.is_space c); reflexivity.
  - rewrite rev_snoc. destruct (String.rev (String a w)) eqn:Hr; [|reflexivity].
    apply (f_equal String.rev) in Hr. rewrite rev_involutive in Hr. discriminate.
Qed.

Lemma lstrip_idem (s : string) : Str.lstrip (Str.lstrip s) = Str.lstrip s.
Proof.
  induction s as [|c s IH]; [reflexivity|]. simpl.
  destruct (Str.is_space c) eqn:Hc; [exact IH|]. simpl. rewrite Hc. reflexivity.
Qed.

Lemma rstrip_idem (s : string) : Str.rstrip (Str.rstrip s) = Str.rstrip s.
Proof. unfold Str.rstrip. rewrite rev_involutive, lstrip_idem. reflexivity. Qed.

Lemma lstrip_rstrip_lstrip (s : string) :
  Str.lstrip (Str.rstrip (Str.lstrip s)) = Str.rstrip (Str.lstrip s).
Proof.
  induction s as [|c s IH]; [reflexivity|]. simpl.
  destruct (Str.is_space c) eqn:Hc; [exact IH|].
  rewrite rstrip_cons, Hc. destruct (Str.rstrip s); simpl; rewrite Hc; reflexivity.
Qed.

Lemma strip_idem (s : string) : Str.strip (Str.strip s) = Str.strip s.
Proof. unfold Str.strip. rewrite lstrip_rstrip_lstrip, rstrip_idem. reflexivity. Qed.

Lemma is_space_lower (c : ascii) : Str.is_space (Str.lower_char c) = Str.is_space c.
Proof. destruct c as [[] [] [] [] [] [] [] []]; reflexivity. Qed.

Lemma lower_lstrip (s : string) : Str.lower (Str.lstrip s) = Str.lstrip (Str.lower s).
Proof.
  induction s as [|c s IH]; [reflexivity|]. simpl. rewrite is_space_lower.
  destruct (Str.is_space c); [exact IH | reflexivity].
Qed.

Lemma lower_append (s t : string) : Str.lower (s +:+ t) = Str.lower s +:+ Str.lower t.
Proof. induction s as [|c s IH]; [reflexivity|]. rewrite append_cons. simpl. rewrite IH. reflexivity. Qed.

Lemma lower_rev (s : string) : Str.lower (String.rev s) = String.rev (Str.lower s).
Proof.
  induction s as [|c s IH]; [reflexivity|]. simpl.
  rewrite !rev_cons, lower_append, IH. reflexivity.
Qed.

Lemma lower_strip (s : string) : Str.lower (Str.strip s) = Str.strip (Str.lower s).
Proof.
  unfold Str.strip, Str.rstrip. rewrite lower_rev, lower_lstrip, lower_rev, lower_lstrip.
  reflexivity.
Qed.

Lemma clean_idem (q : string) : clean (clean q) = clean q.
Proof. unfold clean. rewrite lower_strip, lower_idem, strip_idem. reflexivity. Qed.

(** X25.  The answer does not depend on the letter case of the query nor
    on white space around it: cleaning a cleaned query changes nothing,
    so a query and its cleaned form, and any two queries with the same
    cleaned form, get the same answer. *)
Theorem query_case_and_padding_ignored extern (pesticide_db : option DataFrame)
    (q q' : string) :
  clean q' = clean q →
  clean (clean q) = clean q
  ∧ PesticideRecommender.get_recommendations extern pesticide_db (clean q)
    = PesticideRecommender.get_recommendations extern pesticide_db q
  ∧ PesticideRecommender.get_recommendations extern pesticide_db q'
    = PesticideRecommender.get_recommendations extern pesticide_db q.
Proof.
  intros Hq. split; [apply clean_idem|].
  unfold PesticideRecommender.get_recommendations.
  fold (clean q) (clean q') (clean (clean q)). rewrite clean_idem, Hq. split; reflexivity.
Qed.

Lemma query_case_and_padding_ignored_witness :
  PesticideRecommender.get_recommendations (re_extern blank_env)
    (Some PesticideRecommender.default_database) "  THRIPS "
  = PesticideRecommender.get_recommendations (re_extern blank_env)
      (Some PesticideRecommender.default_database) "Thrips".
Proof.
  apply (query_case_and_padding_ignored (re_extern blank_env)
           (Some PesticideRecommender.default_database) "Thrips" "  THRIPS ").
  reflexivity.
Defined.
